(** * Polymarket_ExportBot: market discovery and the price watcher

    A shallow embedding of [discovery.py] and [market_watcher.py].

    Both files work on values decoded from JSON and rely on Python's dynamic
    typing, so the embedding starts with a small model of those values and of
    the builtins the two files call on them ([Py]).  [Discovery] follows
    [discovery.py], [Watcher] follows [market_watcher.py].

    Library functions whose full behaviour is outside the repository
    ([json.loads], [float] on a string, [datetime.fromisoformat] followed by
    [astimezone]) are the fields of the class [Py.Runtime]: every theorem
    holds for any behaviour of them, and the closed examples fix their
    answers on the strings they use. *)

From Stdlib Require Import ZArith List String Ascii Bool Lia.
From Stdlib Require Import PrimFloat SpecFloat FloatOps.
Import ListNotations.

#[local] Set Warnings "-inexact-float,-register-all".
#[local] Open Scope string_scope.
#[local] Open Scope Z_scope.

(* ================================================================== *)
(** ** Python values, exceptions and builtins *)
(* ================================================================== *)

Module Py.

(** The exceptions the two files can meet.  [TransportError] stands for what
    [aiohttp] and [websockets] raise (all of them subclasses of [Exception]). *)
Inductive exn : Type :=
| KeyError
| IndexError
| TypeError
| ValueError
| AttributeError
| OverflowError
| TransportError.

(** A computation that returns or raises. *)
Inductive result (A : Type) : Type :=
| Ok (a : A)
| Raise (e : exn).
Arguments Ok {A} a.
Arguments Raise {A} e.

Definition bind {A B : Type} (r : result A) (k : A -> result B) : result B :=
  match r with
  | Ok a => k a
  | Raise e => Raise e
  end.

Declare Scope py_scope.
Delimit Scope py_scope with py.
Notation "x <- c1 ;; c2" := (bind c1 (fun x => c2))
  (at level 61, c1 at next level, right associativity) : py_scope.
#[local] Open Scope py_scope.

(** What [json.loads] produces; [JNull] is also Python's [None] (the value
    [dict.get] returns for a missing key).  A dict is kept as the list of its
    items; a key is bound to its first occurrence in the list. *)
Inductive json : Type :=
| JNull
| JBool (b : bool)
| JInt (z : Z)
| JFloat (f : float)
| JStr (s : string)
| JArr (xs : list json)
| JObj (kvs : list (string * json)).

Fixpoint dict_get (kvs : list (string * json)) (k : string) : option json :=
  match kvs with
  | [] => None
  | (k', v) :: rest => if String.eqb k' k then Some v else dict_get rest k
  end.

Fixpoint dict_keys (seen : list string) (kvs : list (string * json)) : list string :=
  match kvs with
  | [] => []
  | (k, _) :: rest =>
      if existsb (String.eqb k) seen then dict_keys seen rest
      else k :: dict_keys (k :: seen) rest
  end.

(** [bool(v)]: the test behind [if v], [not v] and [a or b]. *)
Definition truthy (v : json) : bool :=
  match v with
  | JNull => false
  | JBool b => b
  | JInt z => negb (z =? 0)
  | JFloat f => negb (PrimFloat.eqb f 0)
  | JStr s => negb (String.eqb s "")
  | JArr xs => match xs with [] => false | _ => true end
  | JObj kvs => match kvs with [] => false | _ => true end
  end.

(** [a or b]. *)
Definition py_or (a b : json) : json := if truthy a then a else b.

(** [v.get(k, default)]: only a dict has the method. *)
Definition get_default (v : json) (k : string) (default : json) : result json :=
  match v with
  | JObj kvs => Ok (match dict_get kvs k with Some x => x | None => default end)
  | _ => Raise AttributeError
  end.

(** [v.get(k)]. *)
Definition get (v : json) (k : string) : result json := get_default v k JNull.

(** [v[k]] for a string key [k]. *)
Definition getitem (v : json) (k : string) : result json :=
  match v with
  | JObj kvs => match dict_get kvs k with Some x => Ok x | None => Raise KeyError end
  | _ => Raise TypeError
  end.

Fixpoint string_nth (s : string) (i : nat) : option ascii :=
  match s, i with
  | EmptyString, _ => None
  | String c _, O => Some c
  | String _ s', S i' => string_nth s' i'
  end.

(** [v[i]] for an index [i >= 0]. *)
Definition index (v : json) (i : nat) : result json :=
  match v with
  | JArr xs => match nth_error xs i with Some x => Ok x | None => Raise IndexError end
  | JStr s => match string_nth s i with
              | Some c => Ok (JStr (String c EmptyString))
              | None => Raise IndexError
              end
  | JObj _ => Raise KeyError
  | _ => Raise TypeError
  end.

Fixpoint chars (s : string) : list json :=
  match s with
  | EmptyString => []
  | String c s' => JStr (String c EmptyString) :: chars s'
  end.

(** The elements [for x in v] visits. *)
Definition iter (v : json) : result (list json) :=
  match v with
  | JArr xs => Ok xs
  | JStr s => Ok (chars s)
  | JObj kvs => Ok (map JStr (dict_keys [] kvs))
  | _ => Raise TypeError
  end.

(** *** Numbers *)

(** [int(f)]: truncation toward zero; [nan] and the infinities raise. *)
Definition int_of_float (f : float) : result Z :=
  match Prim2SF f with
  | S754_zero _ => Ok 0
  | S754_finite s m e =>
      let mag := match e with
                 | Zneg p => Z.shiftr (Zpos m) (Zpos p)
                 | _ => Z.shiftl (Zpos m) e
                 end in
      Ok (if s then - mag else mag)
  | S754_infinity _ => Raise OverflowError
  | S754_nan => Raise ValueError
  end.

(** [float(z)] for an int: round to nearest even, [OverflowError] when the
    int is too large for a double. *)
Definition float_of_int (z : Z) : result float :=
  match binary_normalize 53 1024 z 0 false with
  | S754_infinity _ => Raise OverflowError
  | sf => Ok (SF2Prim sf)
  end.

(** Whether the int [z] and the float [f] denote the same number (Python
    compares them exactly). *)
Definition int_eq_float (z : Z) (f : float) : bool :=
  match Prim2SF f with
  | S754_zero _ => z =? 0
  | S754_finite s m e =>
      let sm := if s then Zneg m else Zpos m in
      match e with
      | Zneg p => Z.shiftl z (Zpos p) =? sm
      | _ => z =? Z.shiftl sm e
      end
  | _ => false
  end.

Definition Z_of_bool (b : bool) : Z := if b then 1 else 0.

(** *** Equality [a == b] on decoded values *)

Section ListEq.
Variable eqv : json -> json -> bool.

Fixpoint list_eq (xs ys : list json) : bool :=
  match xs, ys with
  | [], [] => true
  | x :: xs', y :: ys' => eqv x y && list_eq xs' ys'
  | _, _ => false
  end.

(** Every key of the first dict that is not shadowed is bound in the second
    to an equal value. *)
Fixpoint dict_sub (seen : list string) (kvs other : list (string * json)) : bool :=
  match kvs with
  | [] => true
  | (k, v) :: rest =>
      if existsb (String.eqb k) seen then dict_sub seen rest other
      else match dict_get other k with
           | Some v' => eqv v v' && dict_sub (k :: seen) rest other
           | None => false
           end
  end.
End ListEq.

Fixpoint py_eq (a b : json) {struct a} : bool :=
  match a, b with
  | JNull, JNull => true
  | JBool x, JBool y => Bool.eqb x y
  | JBool x, JInt y => Z_of_bool x =? y
  | JInt x, JBool y => x =? Z_of_bool y
  | JInt x, JInt y => x =? y
  | JBool x, JFloat y => int_eq_float (Z_of_bool x) y
  | JFloat x, JBool y => int_eq_float (Z_of_bool y) x
  | JInt x, JFloat y => int_eq_float x y
  | JFloat x, JInt y => int_eq_float y x
  | JFloat x, JFloat y => PrimFloat.eqb x y
  | JStr s, JStr t => String.eqb s t
  | JArr xs, JArr ys => list_eq py_eq xs ys
  | JObj kvs, JObj kvs' =>
      dict_sub py_eq [] kvs kvs'
      && Nat.eqb (List.length (dict_keys [] kvs)) (List.length (dict_keys [] kvs'))
  | _, _ => false
  end.

(** *** Strings *)

Fixpoint starts_with (p s : string) : bool :=
  match p, s with
  | EmptyString, _ => true
  | String a p', String b s' => Ascii.eqb a b && starts_with p' s'
  | String _ _, EmptyString => false
  end.

(** [s.replace(old, new)] for a non-empty [old]: occurrences are replaced from
    left to right without overlap; [skip] counts the characters of a matched
    occurrence still to be dropped. *)
Fixpoint replace_from (old new : string) (skip : nat) (s : string) : string :=
  match s with
  | EmptyString => EmptyString
  | String c s' =>
      match skip with
      | S k => replace_from old new k s'
      | O =>
          if starts_with old s
          then String.append new (replace_from old new (Nat.pred (String.length old)) s')
          else String c (replace_from old new O s')
      end
  end.

Definition str_replace (old new s : string) : string := replace_from old new O s.

(** [s.lstrip(c)] for a single character [c]. *)
Fixpoint lstrip (c : ascii) (s : string) : string :=
  match s with
  | String a s' => if Ascii.eqb a c then lstrip c s' else s
  | EmptyString => EmptyString
  end.

Definition upper_ascii (c : ascii) : ascii :=
  let n := nat_of_ascii c in
  if (Nat.leb 97 n && Nat.leb n 122)%bool then ascii_of_nat (n - 32) else c.

(** [s.upper()] on ASCII text. *)
Fixpoint upper (s : string) : string :=
  match s with
  | EmptyString => EmptyString
  | String c s' => String (upper_ascii c) (upper s')
  end.

Definition hex_digit (n : nat) : ascii :=
  if Nat.ltb n 10 then ascii_of_nat (48 + n) else ascii_of_nat (55 + n).

Definition percent_byte (n : nat) : string :=
  String "%" (String (hex_digit (Nat.div n 16)) (String (hex_digit (Nat.modulo n 16)) EmptyString)).

Definition unreserved (n : nat) : bool :=
  (Nat.leb 48 n && Nat.leb n 57) || (Nat.leb 65 n && Nat.leb n 90)
  || (Nat.leb 97 n && Nat.leb n 122)
  || Nat.eqb n 95 || Nat.eqb n 46 || Nat.eqb n 45 || Nat.eqb n 126.

(** [urllib.parse.quote_plus]: letters, digits and [_.-~] stay, a space
    becomes [+], every other character is percent-encoded byte by byte in
    UTF-8.  A character of the model is a code point below 256, so it takes
    one byte below 128 and two bytes from 128 on. *)
Fixpoint quote_plus (s : string) : string :=
  match s with
  | EmptyString => EmptyString
  | String c s' =>
      let n := nat_of_ascii c in
      let enc :=
        if unreserved n then String c EmptyString
        else if Nat.eqb n 32 then "+"
        else if Nat.ltb n 128 then percent_byte n
        else String.append (percent_byte (192 + Nat.div n 64))
                           (percent_byte (128 + Nat.modulo n 64)) in
      String.append enc (quote_plus s')
  end.

(** *** Library functions taken as parameters *)

Class Runtime : Type := {
  (** [json.loads(s)] on a string: the decoded value, or the decode error. *)
  json_loads : string -> result json;
  (** [float(s)] on a string. *)
  float_of_str : string -> result float;
  (** [datetime.fromisoformat(s).astimezone(ET_TZ)]: the instant the string
      denotes, in microseconds since the epoch, or the error raised. *)
  fromisoformat_et : string -> result Z
}.

Section Builtins.
Context {rt : Runtime}.

(** [json.loads(v)]: only text can be decoded. *)
Definition loads (v : json) : result json :=
  match v with
  | JStr s => json_loads s
  | _ => Raise TypeError
  end.

(** [float(v)]. *)
Definition py_float (v : json) : result float :=
  match v with
  | JStr s => float_of_str s
  | JFloat f => Ok f
  | JInt z => float_of_int z
  | JBool b => Ok (if b then 1%float else 0%float)
  | JNull | JArr _ | JObj _ => Raise TypeError
  end.
End Builtins.

End Py.

(* ================================================================== *)
(** ** discovery.py *)
(* ================================================================== *)

Module Discovery.
Import Py.
#[local] Open Scope py_scope.

Definition API_URL : string := "https://gamma-api.polymarket.com/public-search".

(** *** Time helpers *)

(** A [datetime].  The date is carried as its proleptic Gregorian ordinal
    ([toordinal()], day 1 is 0001-01-01), the form in which [datetime]
    itself adds a [timedelta]; year, month and day are read back with
    [ord2ymd].  [utcoffset] is [None] for a naive value and the offset in
    seconds of its (fixed-offset) [tzinfo] otherwise: a [pytz] zone attaches
    one such tzinfo per UTC offset, and neither [replace] nor the addition of
    a [timedelta] changes it. *)
Record datetime : Type := mk_datetime {
  ordinal : Z;
  hour : Z;
  minute : Z;
  second : Z;
  microsecond : Z;
  utcoffset : option Z
}.

(** [date.max.toordinal()], the ordinal of 9999-12-31. *)
Definition MAXORDINAL : Z := 3652059.

(** The ordinal of 1970-01-01. *)
Definition EPOCH_ORDINAL : Z := 719163.

Definition valid_datetime (d : datetime) : Prop :=
  1 <= ordinal d <= MAXORDINAL /\ 0 <= hour d < 24 /\ 0 <= minute d < 60
  /\ 0 <= second d < 60 /\ 0 <= microsecond d < 1000000.

(** The wall-clock reading of [d] as one duration in microseconds:
    [timedelta(d.toordinal(), hours=d.hour, minutes=d.minute,
    seconds=d.second, microseconds=d.microsecond)]. *)
Definition wall_us (d : datetime) : Z :=
  (((ordinal d * 24 + hour d) * 60 + minute d) * 60 + second d) * 1000000
  + microsecond d.

(** The instant of an aware datetime, in microseconds since the epoch.  Two
    aware datetimes are compared and subtracted as instants (with the same
    tzinfo Python works on the wall-clock fields, which is the same thing
    when the offsets agree); a naive one cannot be compared with them. *)
Definition instant (d : datetime) : result Z :=
  match utcoffset d with
  | Some off => Ok (wall_us d - EPOCH_ORDINAL * 86400000000 - off * 1000000)
  | None => Raise TypeError
  end.

(** The comparison of two datetimes that carry the same tzinfo (or none):
    field by field, the date first.  Dates compare as their ordinals do. *)
Definition dt_cmp (a b : datetime) : comparison :=
  match ordinal a ?= ordinal b with
  | Eq =>
      match hour a ?= hour b with
      | Eq =>
          match minute a ?= minute b with
          | Eq =>
              match second a ?= second b with
              | Eq => microsecond a ?= microsecond b
              | c => c
              end
          | c => c
          end
      | c => c
      end
  | c => c
  end.

(** [a <= b] and [a < b]. *)
Definition dt_le (a b : datetime) : bool :=
  match dt_cmp a b with Gt => false | _ => true end.

Definition dt_lt (a b : datetime) : bool :=
  match dt_cmp a b with Lt => true | _ => false end.

(** [t] is earlier than 23:45 on 9999-12-31, the start of the last
    quarter-hour a [datetime] can express. *)
Definition before_last_quarter (t : datetime) : Prop :=
  ordinal t < MAXORDINAL \/ hour t < 23 \/ minute t < 45.


(** [d.replace(minute=m, second=0, microsecond=0)]. *)
Definition replace_minute (d : datetime) (m : Z) : result datetime :=
  if (0 <=? m) && (m <? 60)
  then Ok (mk_datetime (ordinal d) (hour d) m 0 0 (utcoffset d))
  else Raise ValueError.

(** [timedelta(minutes=n)], a duration in microseconds. *)
Definition timedelta_minutes (n : Z) : Z := n * 60 * 1000000.

(** [d + td]: the sum is split again into days, seconds and microseconds, and
    a day outside [1 .. MAXORDINAL] raises [OverflowError]. *)
Definition add_timedelta (d : datetime) (td : Z) : result datetime :=
  let total := wall_us d + td in
  let days := total / 86400000000 in
  let rest := total mod 86400000000 in
  let secs := rest / 1000000 in
  if (0 <? days) && (days <=? MAXORDINAL)
  then Ok (mk_datetime days (secs / 3600) ((secs mod 3600) / 60) (secs mod 60)
                       (rest mod 1000000) (utcoffset d))
  else Raise OverflowError.

(** Calculate the start and end of the 15-minute window of [now_et]. *)
Definition get_window_boundaries (now_et : datetime) : result (datetime * datetime) :=
  let minute := (minute now_et / 15) * 15 in
  start <- replace_minute now_et minute ;;
  end_ <- add_timedelta start (timedelta_minutes 15) ;;
  Ok (start, end_).

(** *** Title variants *)

Definition DAYS_BEFORE_MONTH (month : Z) : Z :=
  nth (Z.to_nat month) [0; 0; 31; 59; 90; 120; 151; 181; 212; 243; 273; 304; 334] 0.

Definition DAYS_IN_MONTH (month : Z) : Z :=
  nth (Z.to_nat month) [0; 31; 28; 31; 30; 31; 30; 31; 31; 30; 31; 30; 31] 0.

(** [datetime._ord2ymd]: year, month and day of an ordinal. *)
Definition ord2ymd (n : Z) : Z * Z * Z :=
  let n := n - 1 in
  let n400 := n / 146097 in
  let n := n mod 146097 in
  let year := n400 * 400 + 1 in
  let n100 := n / 36524 in
  let n := n mod 36524 in
  let n4 := n / 1461 in
  let n := n mod 1461 in
  let n1 := n / 365 in
  let n := n mod 365 in
  let year := year + n100 * 100 + n4 * 4 + n1 in
  if (n1 =? 4) || (n100 =? 4) then (year - 1, 12, 31)
  else
    let leapyear := (n1 =? 3) && (negb (n4 =? 24) || (n100 =? 3)) in
    let month := Z.shiftr (n + 50) 5 in
    let preceding := DAYS_BEFORE_MONTH month
                     + (if (2 <? month) && leapyear then 1 else 0) in
    if n <? preceding
    then
      let month := month - 1 in
      let preceding := preceding
                       - (DAYS_IN_MONTH month
                          + (if (month =? 2) && leapyear then 1 else 0)) in
      (year, month, n - preceding + 1)
    else (year, month, n - preceding + 1).

Definition month_name (month : Z) : string :=
  nth (Z.to_nat month)
      [""; "January"; "February"; "March"; "April"; "May"; "June"; "July";
       "August"; "September"; "October"; "November"; "December"] "".

Definition digit (n : Z) : ascii := ascii_of_nat (48 + Z.to_nat n).

(** A number below 100 on two digits, as [%d], [%I] and [%M] print it. *)
Definition two_digits (n : Z) : string :=
  String (digit (n / 10)) (String (digit (n mod 10)) EmptyString).

(** [d.strftime("%B %d")] in the C locale. *)
Definition strftime_B_d (d : datetime) : string :=
  let '(_, month, day) := ord2ymd (ordinal d) in
  String.append (month_name month) (String.append " " (two_digits day)).

(** [d.strftime("%I:%M%p")] in the C locale. *)
Definition strftime_I_M_p (d : datetime) : string :=
  let h12 := if hour d mod 12 =? 0 then 12 else hour d mod 12 in
  String.append (two_digits h12)
    (String.append ":"
       (String.append (two_digits (minute d)) (if hour d <? 12 then "AM" else "PM"))).

(** Generate search query variations based on Polymarket naming conventions. *)
Definition title_variants (start : datetime) : list string :=
  let date_str := str_replace " 0" " " (strftime_B_d start) in
  let time_str := upper (lstrip "0" (strftime_I_M_p start)) in
  [ String.append "Bitcoin Up or Down "
      (String.append date_str (String.append " " (String.append time_str " ET")));
    String.append "Bitcoin Up or Down - "
      (String.append date_str (String.append ", " (String.append time_str " ET")));
    String.append "Bitcoin Up or Down - "
      (String.append date_str (String.append " " (String.append time_str " ET"))) ].

(** [n] in decimal without padding, for [0 <= n < 100]: what is left of
    [%d] and [%I] once the leading zero is gone. *)
Definition decimal (n : Z) : string :=
  if n <? 10 then String (digit n) EmptyString else two_digits n.

(** *** Market discovery *)

(** The dictionary [find_active_window] returns.  [start_time] and [end_time]
    are the instants whose [isoformat()] text the dictionary carries. *)
Record MarketDescriptor : Type := mk_descriptor {
  title : json;
  yes_id : json;
  no_id : json;
  start_time : Z;
  end_time : Z;
  condition_id : json;
  question_id : json
}.

(** What one [session.get(url)] comes to. *)
Inductive http_outcome : Type :=
| GetRaises (e : exn)
    (** the request itself raised (connection error, timeout) *)
| GetStatus (status : Z) (body : result json).
    (** a response with [resp.status], and what [await resp.json()] gives *)



Section FindActiveWindow.
Context {rt : Runtime}.

(** The search service: the state [World] of everything outside the
    program, and the outcome of a GET as a function of it. *)
Variable World : Type.
Variable http_get : string -> World -> http_outcome * World.

(** [datetime.fromisoformat(ts.replace("Z", "+00:00")).astimezone(ET_TZ)]. *)
Definition to_et (ts : json) : result Z :=
  match ts with
  | JStr s => fromisoformat_et (str_replace "Z" "+00:00" s)
  | _ => Raise AttributeError
  end.

(** The first part of the loop body: the first market of the hit and its
    two timestamps, [None] when a timestamp is missing (the [continue]). *)
Definition hit_window (ev : json) : result (option (json * Z * Z)) :=
  markets <- get_default ev "markets" (JArr [JObj []]) ;;
  m <- index markets 0 ;;
  a <- get m "eventStartTime" ;;
  start_ts <- (if truthy a then Ok a else get ev "startTime") ;;
  b <- get m "endDate" ;;
  end_ts <- (if truthy b then Ok b else get ev "endDate") ;;
  if negb (truthy start_ts) || negb (truthy end_ts) then Ok None
  else
    start_dt <- to_et start_ts ;;
    end_dt <- to_et end_ts ;;
    Ok (Some (m, start_dt, end_dt)).

(** Filter 1, [duration > 1800], on [(end_dt - start_dt).total_seconds()].
    The difference is a whole number of microseconds and [total_seconds]
    is its correctly rounded quotient by [10**6]; 1800 is a double and the
    next difference above it is [1e-6] away, far more than the spacing of
    doubles there, so the test on the double is the test on the integers. *)
Definition too_long (start_dt end_dt : Z) : bool :=
  1800 * 1000000 <? end_dt - start_dt.

(** The body of [if start_dt <= now_et < end_dt]. *)
Definition make_descriptor (ev m : json) (start_dt end_dt : Z)
  : result MarketDescriptor :=
  c <- getitem m "clobTokenIds" ;;
  token_ids <- loads c ;;
  title <- get_default ev "title" (JStr "BTC 15m") ;;
  yes <- index token_ids 0 ;;
  no <- index token_ids 1 ;;
  cid <- get m "conditionId" ;;
  qid <- get m "questionID" ;;
  Ok (mk_descriptor title yes no start_dt end_dt cid qid).

(** Filter 2 and the return. *)
Definition if_active (now_et : datetime) (ev m : json) (start_dt end_dt : Z)
  : result (option MarketDescriptor) :=
  now <- instant now_et ;;
  if (start_dt <=? now) && (now <? end_dt)
  then d <- make_descriptor ev m start_dt end_dt ;; Ok (Some d)
  else Ok None.

(** One pass of the body of [for ev in events]: [Some d] is the [return],
    [None] falls through to the next hit. *)
Definition scan_hit (now_et : datetime) (ev : json)
  : result (option MarketDescriptor) :=
  hw <- hit_window ev ;;
  match hw with
  | None => Ok None
  | Some (m, start_dt, end_dt) =>
      if too_long start_dt end_dt then Ok None
      else if_active now_et ev m start_dt end_dt
  end.

(** [for ev in events]. *)
Fixpoint scan_events (now_et : datetime) (events : list json)
  : result (option MarketDescriptor) :=
  match events with
  | [] => Ok None
  | ev :: rest =>
      r <- scan_hit now_et ev ;;
      match r with
      | Some d => Ok (Some d)
      | None => scan_events now_et rest
      end
  end.

(** What follows the [try] block for one decoded body. *)
Definition scan_body (now_et : datetime) (data : json)
  : result (option MarketDescriptor) :=
  events <- get_default data "events" (JArr []) ;;
  if negb (truthy events) then Ok None
  else evs <- iter events ;; scan_events now_et evs.

Definition search_url (q : string) : string :=
  String.append API_URL (String.append "?q=" (quote_plus q)).

(** [for q in queries]: the result, the URLs requested in order, and the
    world afterwards.  The status lines printed on the way are left out. *)
Fixpoint sweep (now_et : datetime) (queries : list string) (w : World)
  : result (option MarketDescriptor) * list string * World :=
  match queries with
  | [] => (Ok None, [], w)
  | q :: rest =>
      let url := search_url q in
      let '(resp, w1) := http_get url w in
      let next := let '(r, urls, w2) := sweep now_et rest w1 in
                  (r, url :: urls, w2) in
      match resp with
      | GetRaises _ => next
      | GetStatus status body =>
          if negb (status =? 200) then next
          else
            match body with
            | Raise _ => next
            | Ok data =>
                match scan_body now_et data with
                | Raise e => (Raise e, [url], w1)
                | Ok (Some d) => (Ok (Some d), [url], w1)
                | Ok None => next
                end
            end
      end
  end.

(** Scans the search API for the currently active 15-minute market, with
    [now_et] the reading of [current_et()]. *)
Definition find_active_window (now_et : datetime) (w : World)
  : result (option MarketDescriptor) * list string * World :=
  match get_window_boundaries now_et with
  | Raise e => (Raise e, [], w)
  | Ok (start, end_) =>
      sweep now_et (title_variants start ++ title_variants end_) w
  end.

End FindActiveWindow.

End Discovery.

(* ================================================================== *)
(** ** market_watcher.py *)
(* ================================================================== *)

Module Watcher.
Import Py.
#[local] Open Scope py_scope.

(** The fields of a [MarketWatcher]; [self.ids] and [self.prices] are the two
    dictionaries with the keys ["YES"] and ["NO"]. *)
Record MarketWatcher : Type := mk_watcher {
  ids_YES : json;
  ids_NO : json;
  end_time : Z;
  title : json;
  condition_id : json;
  prices_YES : float;
  prices_NO : float
}.

(** [MarketWatcher(market_data)]: [end_time] is parsed back from the
    [isoformat()] text of the descriptor, the same instant. *)
Definition init (market_data : Discovery.MarketDescriptor) : MarketWatcher :=
  mk_watcher (Discovery.yes_id market_data) (Discovery.no_id market_data)
             (Discovery.end_time market_data) (Discovery.title market_data)
             (Discovery.condition_id market_data) 0%float 0%float.

Definition set_YES (w : MarketWatcher) (p : float) : MarketWatcher :=
  mk_watcher (ids_YES w) (ids_NO w) (end_time w) (title w) (condition_id w)
             p (prices_NO w).

Definition set_NO (w : MarketWatcher) (p : float) : MarketWatcher :=
  mk_watcher (ids_YES w) (ids_NO w) (end_time w) (title w) (condition_id w)
             (prices_YES w) p.

(** What the watcher sends out: the status line of [refresh_display] with
    its three numbers, and the keepalive of the receive loop. *)
Inductive event : Type :=
| Display (time_rem y_price n_price : Z)
| Ping.

(** The double nearest to the quotient [a / d] of two positive ints, ties to
    even, as Python's true division of ints gives it: the mantissa [m], of
    53 bits before rounding, and the exponent [e] of [m * 2 ** e].  (Within
    the range of a [timedelta] the quotient by [10**6] neither overflows nor
    is subnormal.) *)
Definition nearest_double_mantissa (a d : Z) : Z * Z :=
  let k1 := 53 + Z.log2 d - Z.log2 a in
  let q_at := fun k => (a * 2 ^ Z.max k 0) / (d * 2 ^ Z.max (- k) 0) in
  let k := if q_at k1 <? 2 ^ 53 then k1 else k1 - 1 in
  let n := a * 2 ^ Z.max k 0 in
  let dn := d * 2 ^ Z.max (- k) 0 in
  let q := n / dn in
  let r := n mod dn in
  let q' := if (dn <? 2 * r) || ((dn =? 2 * r) && Z.odd q) then q + 1 else q in
  (q', - k).

(** [int(a / d)] for positive ints: the integer part of that double. *)
Definition int_of_quotient (a d : Z) : Z :=
  let '(m, e) := nearest_double_mantissa a d in
  if 0 <=? e then m * 2 ^ e else m / 2 ^ (- e).

(** [int(td.total_seconds())] for a [timedelta] of [us] microseconds:
    [total_seconds()] is the double nearest to [us / 10**6], and [int]
    truncates it toward zero. *)
Definition int_total_seconds (us : Z) : Z :=
  match us with
  | 0 => 0
  | Zpos _ => int_of_quotient us 1000000
  | Zneg _ => - int_of_quotient (- us) 1000000
  end.

(** [int(self.get_time_remaining())] at the clock reading [now] (both
    instants in microseconds). *)
Definition time_remaining_int (w : MarketWatcher) (now : Z) : Z :=
  int_total_seconds (end_time w - now).

(** [int(price * 100)]. *)
Definition cents (price : float) : result Z := int_of_float (price * 100)%float.

(** [refresh_display]: the status line written, or the exception of an
    [int(...)] on a price that is [nan] or infinite. *)
Definition refresh_display (now : Z) (w : MarketWatcher) : result event :=
  let time_rem := time_remaining_int w now in
  y_price <- cents (prices_YES w) ;;
  n_price <- cents (prices_NO w) ;;
  Ok (Display time_rem y_price n_price).

(** A method call on the watcher: it returns or raises, leaves the watcher
    in a new state and has sent out some events. *)
Definition outcome : Type := result unit * MarketWatcher * list event.

Definition update_price (now : Z) (asset_id : json) (price : float)
                        (w : MarketWatcher) : outcome :=
  if PrimFloat.eqb price 0 then (Ok tt, w, [])
  else
    let w' := if py_eq asset_id (ids_YES w) then set_YES w price
              else if py_eq asset_id (ids_NO w) then set_NO w price
              else w in
    match refresh_display now w' with
    | Ok ev => (Ok tt, w', [ev])
    | Raise e => (Raise e, w', [])
    end.

(** Sequencing of two steps on the watcher: the second runs when the first
    returned. *)
Definition and_then (o : outcome) (k : MarketWatcher -> outcome) : outcome :=
  match o with
  | (Ok _, w, evs) => let '(r, w', evs') := k w in (r, w', (evs ++ evs')%list)
  | (Raise e, w, evs) => (Raise e, w, evs)
  end.

(** A pure computation followed by a step on the watcher. *)
Definition with_value {A : Type} (r : result A) (w : MarketWatcher)
                      (k : A -> outcome) : outcome :=
  match r with
  | Ok a => k a
  | Raise e => (Raise e, w, [])
  end.

Section ProcessItem.
Context {rt : Runtime}.

(** One round of [for c in item.get('price_changes', [])]. *)
Definition price_change (now : Z) (c : json) (w : MarketWatcher) : outcome :=
  with_value (aid <- getitem c "asset_id" ;;
              ask <- get c "best_ask" ;;
              p <- py_float (py_or ask (JInt 0)) ;;
              Ok (aid, p)) w
    (fun '(aid, p) => update_price now aid p w).

Fixpoint price_changes (now : Z) (cs : list json) (w : MarketWatcher) : outcome :=
  match cs with
  | [] => (Ok tt, w, [])
  | c :: rest => and_then (price_change now c w) (price_changes now rest)
  end.

(** Parses WebSocket messages for price data. *)
Definition process_item (now : Z) (item : json) (w : MarketWatcher) : outcome :=
  with_value (get item "event_type") w (fun event_type =>
  if py_eq event_type (JStr "level1") then
    with_value (aid <- get item "asset_id" ;;
                ask <- get item "best_ask" ;;
                if truthy aid && truthy ask
                then p <- py_float ask ;; Ok (Some (aid, p))
                else Ok None) w
      (fun r => match r with
                | Some (aid, p) => update_price now aid p w
                | None => (Ok tt, w, [])
                end)
  else if py_eq event_type (JStr "price_change") then
    with_value (cs <- get_default item "price_changes" (JArr []) ;; iter cs) w
      (fun cs => price_changes now cs w)
  else if py_eq event_type (JStr "book") then
    with_value (asks <- get_default item "asks" (JArr []) ;;
                if truthy asks
                then aid <- getitem item "asset_id" ;;
                     first <- index asks 0 ;;
                     price <- getitem first "price" ;;
                     p <- py_float price ;;
                     Ok (Some (aid, p))
                else Ok None) w
      (fun r => match r with
                | Some (aid, p) => update_price now aid p w
                | None => (Ok tt, w, [])
                end)
  else (Ok tt, w, [])).

Fixpoint process_items (now : Z) (items : list json) (w : MarketWatcher) : outcome :=
  match items with
  | [] => (Ok tt, w, [])
  | item :: rest => and_then (process_item now item w) (process_items now rest)
  end.

(** The body of the inner [try] after [ws.recv()] returned [msg]. *)
Definition on_message (now : Z) (msg : string) (w : MarketWatcher) : outcome :=
  with_value (json_loads msg) w (fun data =>
  match data with
  | JArr items => process_items now items w
  | JObj _ => process_item now data w
  | _ => (Ok tt, w, [])
  end).

(** What [await asyncio.wait_for(ws.recv(), timeout=10)] comes to. *)
Inductive recv_outcome : Type :=
| Message (msg : string)
| TimedOut (ping : result unit)
    (** [asyncio.TimeoutError], and what the [ws.ping()] that answers it does *)
| RecvRaises (e : exn).

(** One turn of the receive loop as the outside world drives it: the clock
    reading of the turn and the outcome of the wait. *)
Record turn : Type := mk_turn {
  turn_now : Z;
  turn_recv : recv_outcome
}.

(** How the session stands after the turns given. *)
Inductive status : Type :=
| Running                    (** still in the receive loop *)
| MarketClosed               (** expiry: the [break] after the time check *)
| StreamError (e : exn)      (** the inner [except Exception]: [break] *)
| ConnectionError (e : exn). (** the outer [except Exception] *)

(** The inner [while True] of [main_loop]. *)
Fixpoint receive_loop (turns : list turn) (w : MarketWatcher)
  : status * MarketWatcher * list event :=
  match turns with
  | [] => (Running, w, [])
  | t :: rest =>
      if end_time w - turn_now t <=? 0 then (MarketClosed, w, [])
      else
        match turn_recv t with
        | Message msg =>
            match on_message (turn_now t) msg w with
            | (Ok _, w', evs) =>
                let '(st, w'', evs') := receive_loop rest w' in
                (st, w'', (evs ++ evs')%list)
            | (Raise e, w', evs) => (StreamError e, w', evs)
            end
        | TimedOut (Ok _) =>
            let '(st, w', evs) := receive_loop rest w in (st, w', Ping :: evs)
        | TimedOut (Raise e) => (ConnectionError e, w, [])
        | RecvRaises e => (StreamError e, w, [])
        end
  end.

(** Whether [event_type] is one of the three shapes [process_item] reads. *)
Definition known_shape (event_type : json) : bool :=
  py_eq event_type (JStr "level1") || py_eq event_type (JStr "price_change")
  || py_eq event_type (JStr "book").

(** A dict whose [event_type] is none of the three. *)
Definition unrecognised_item (item : json) : bool :=
  match get item "event_type" with
  | Ok event_type => negb (known_shape event_type)
  | Raise _ => false
  end.

(** A decoded payload that matches no known shape: neither a list nor a
    dict, or a dict (or a list of dicts) of no known [event_type]. *)
Definition unrecognised (data : json) : bool :=
  match data with
  | JArr items => forallb unrecognised_item items
  | JObj _ => unrecognised_item data
  | _ => true
  end.

(** Following the words of the specification: the best ask of a book is
    the lowest price among the entries of its ask list. *)
Fixpoint lowest (prices : list float) : option float :=
  match prices with
  | [] => None
  | p :: rest =>
      match lowest rest with
      | None => Some p
      | Some q => Some (if PrimFloat.ltb q p then q else p)
      end
  end.

Fixpoint ask_prices (asks : list json) : result (list float) :=
  match asks with
  | [] => Ok []
  | a :: rest =>
      price <- getitem a "price" ;;
      p <- py_float price ;;
      ps <- ask_prices rest ;;
      Ok (p :: ps)
  end.

Definition spec_best_ask (asks : list json) : result (option float) :=
  ps <- ask_prices asks ;; Ok (lowest ps).

End ProcessItem.

(** Both prices can be shown: [int(price * 100)] returns for each. *)
Definition displayable (w : MarketWatcher) : Prop :=
  exists y n, cents (prices_YES w) = Ok y /\ cents (prices_NO w) = Ok n.

(** The states in which [update_price] is called: the fresh watcher, and the
    state a call that returned has left.  A call that raises ends the
    session, and the next session starts from a fresh watcher. *)
Inductive reachable : MarketWatcher -> Prop :=
| reachable_init market_data : reachable (init market_data)
| reachable_update now asset_id price w w' evs :
    reachable w ->
    update_price now asset_id price w = (Ok tt, w', evs) ->
    reachable w'.

(** The watcher follows the same market: everything but the two prices is
    as it was. *)
Definition same_market (w w' : MarketWatcher) : Prop :=
  ids_YES w' = ids_YES w /\ ids_NO w' = ids_NO w /\ end_time w' = end_time w
  /\ title w' = title w /\ condition_id w' = condition_id w.

(** The state a step leaves is in [P] when the step returned and in [E] when
    it raised. *)
Definition keeps (P E : MarketWatcher -> Prop) (o : outcome) : Prop :=
  match o with
  | (Ok _, w, _) => P w
  | (Raise _, w, _) => E w
  end.

(** *** The daemon *)

(** The subscription message: [sub_msg], of which [json.dumps] is sent. *)
Definition sub_msg (market : Discovery.MarketDescriptor) : json :=
  JObj [ ("assets_ids",
          JArr [Discovery.yes_id market; Discovery.no_id market]);
         ("type", JStr "level1") ].

(** What [main_loop] does, as seen from outside: the search requests, the
    opening of the stream, the subscription, what the watcher sends out,
    and the pauses. *)
Inductive action : Type :=
| Get (url : string)
| Connect
| Subscribe (msg : json)
| Out (e : event)
| Sleep (seconds : Z).

(** What the outside world does in one round of the outer [while True]: the
    reading of the clock in [find_active_window], whether
    [websockets.connect] and [ws.send] return or raise, and the turns of
    the receive loop. *)
Record cycle : Type := mk_cycle {
  cycle_now : Discovery.datetime;
  cycle_connect : result unit;
  cycle_send : result unit;
  cycle_turns : list turn
}.

(** Where the daemon stands after the cycles given. *)
Inductive daemon : Type :=
| Scanning             (** at the top of the outer loop *)
| Watching             (** inside the receive loop of a session *)
| Crashed (e : exn).   (** an exception left [main_loop] *)

(** The pauses among the actions, in order. *)
Fixpoint sleeps (acts : list action) : list Z :=
  match acts with
  | [] => []
  | Sleep seconds :: rest => seconds :: sleeps rest
  | _ :: rest => sleeps rest
  end.

Section MainLoop.
Context {rt : Runtime}.
Variable World : Type.
Variable http_get : string -> World -> Discovery.http_outcome * World.

(** The [try] of [main_loop] for one market: the connection, the
    subscription and the receive loop of a fresh watcher. *)
Definition session (c : cycle) (market : Discovery.MarketDescriptor)
  : status * list action :=
  let watcher := init market in
  match cycle_connect c with
  | Raise e => (ConnectionError e, [Connect])
  | Ok _ =>
      match cycle_send c with
      | Raise e => (ConnectionError e, [Connect; Subscribe (sub_msg market)])
      | Ok _ =>
          let '(st, _, evs) := receive_loop (cycle_turns c) watcher in
          (st, Connect :: Subscribe (sub_msg market) :: map Out evs)
      end
  end.

(** The outer [while True], for as many rounds as there are cycles. *)
Fixpoint main_loop (cycles : list cycle) (w : World)
  : daemon * list action * World :=
  match cycles with
  | [] => (Scanning, [], w)
  | c :: rest =>
      let '(found, urls, w1) :=
        Discovery.find_active_window World http_get (cycle_now c) w in
      match found with
      | Raise e => (Crashed e, map Get urls, w1)
      | Ok None =>
          let '(d, acts, w2) := main_loop rest w1 in
          (d, (map Get urls ++ Sleep 30 :: acts)%list, w2)
      | Ok (Some market) =>
          let '(st, acts) := session c market in
          match st with
          | Running => (Watching, (map Get urls ++ acts)%list, w1)
          | _ =>
              let '(d, acts', w2) := main_loop rest w1 in
              (d, (map Get urls ++ acts ++ Sleep 4 :: acts')%list, w2)
          end
      end
  end.

End MainLoop.

End Watcher.

(* ================================================================== *)
(** ** Concrete data for the examples *)
(* ================================================================== *)

Module Samples.
Import Py Discovery Watcher.

(** [s] between double quotes, as it stands inside a JSON text. *)
Definition quoted (s : string) : string :=
  String (ascii_of_nat 34) (String.append s (String (ascii_of_nat 34) EmptyString)).

Fixpoint lookup {A : Type} (tbl : list (string * A)) (s : string) : result A :=
  match tbl with
  | [] => Raise ValueError
  | (k, v) :: rest => if String.eqb k s then Ok v else lookup rest s
  end.

(** The JSON text of an array of two strings. *)
Definition pair_text (a b : string) : string :=
  String.append "[" (String.append (quoted a)
    (String.append ", " (String.append (quoted b) "]"))).

(** The JSON text of an object whose fields are strings. *)
Fixpoint fields_text (fields : list (string * string)) : string :=
  match fields with
  | [] => ""
  | [(k, v)] => String.append (quoted k) (String.append ": " (quoted v))
  | (k, v) :: rest =>
      String.append (quoted k)
        (String.append ": " (String.append (quoted v)
           (String.append ", " (fields_text rest))))
  end.

Definition object_text (fields : list (string * string)) : string :=
  String.append "{" (String.append (fields_text fields) "}").

Definition level1_A_fields : list (string * string) :=
  [ ("event_type", "level1"); ("asset_id", "A"); ("best_ask", "0.62") ].

(** A best-ask update for ["A"], decoded and as the text received. *)
Definition level1_A : json :=
  JObj (map (fun '(k, v) => (k, JStr v)) level1_A_fields).

Definition level1_A_text : string := object_text level1_A_fields.

(** A message of a shape the watcher does not know. *)
Definition trade_fields : list (string * string) :=
  [ ("event_type", "last_trade_price"); ("asset_id", "A"); ("price", "0.55") ].

Definition trade : json := JObj (map (fun '(k, v) => (k, JStr v)) trade_fields).

Definition trade_text : string := object_text trade_fields.

(** A runtime that knows the texts of the examples: the two token-id arrays
    and two stream messages, three prices, and four UTC timestamps from the
    start of the window of 2025-11-22 at 10:15PM Eastern Time (03:15 UTC the
    next day) on.  Any other text is answered with [ValueError], as the
    three functions answer a text they cannot read. *)
Definition sample_runtime : Runtime :=
  Build_Runtime
    (lookup [ (pair_text "A" "B", JArr [JStr "A"; JStr "B"]);
              (pair_text "A" "A", JArr [JStr "A"; JStr "A"]);
              (level1_A_text, level1_A);
              (trade_text, trade) ])
    (lookup [ ("0.62", 0.62%float); ("0.60", 0.6%float); ("0.41", 0.41%float) ])
    (lookup [ ("2025-11-23T03:15:00+00:00", 1763867700000000);
              ("2025-11-23T03:30:00+00:00", 1763868600000000);
              ("2025-11-23T03:45:00+00:00", 1763869500000000);
              ("2025-11-23T03:45:01+00:00", 1763869501000000) ]).

(** 2025-11-22 22:20:12.5 Eastern Standard Time. *)
Definition now_2220 : datetime := mk_datetime 739577 22 20 12 500000 (Some (-18000)).

(** 9999-12-31 23:50, in the last quarter-hour [datetime] can express. *)
Definition last_quarter_hour : datetime := mk_datetime 3652059 23 50 0 0 None.

(** A search hit whose first market runs from [start_ts] to [end_ts] and
    has the fields [extra] besides. *)
Definition hit_between (start_ts end_ts : string) (extra : list (string * json))
  : json :=
  JObj [ ("title", JStr "Bitcoin Up or Down - November 22, 10:15PM ET");
         ("markets",
          JArr [ JObj (("eventStartTime", JStr start_ts)
                       :: ("endDate", JStr end_ts)
                       :: extra) ]) ].

(** A hit for the window from 10:15PM to 10:30PM. *)
Definition hit (extra : list (string * json)) : json :=
  hit_between "2025-11-23T03:15:00Z" "2025-11-23T03:30:00Z" extra.

Definition body_of (hits : list json) : json := JObj [ ("events", JArr hits) ].

(** A search service that answers every request with the same outcome and
    counts the requests it served. *)
Definition always (o : http_outcome) (url : string) (served : nat)
  : http_outcome * nat := (o, S served).

Definition tokens_AB : list (string * json) :=
  [ ("clobTokenIds", JStr (pair_text "A" "B")); ("conditionId", JStr "0xc0") ].

(** The market record of [hit tokens_AB]. *)
Definition market_record_AB : json :=
  JObj (("eventStartTime", JStr "2025-11-23T03:15:00Z")
        :: ("endDate", JStr "2025-11-23T03:30:00Z") :: tokens_AB).

Definition hit_AB : json := hit tokens_AB.

(** A hit whose market record has no [clobTokenIds]. *)
Definition hit_without_tokens : json := hit [ ("conditionId", JStr "0xc0") ].

(** A hit whose two token ids are the same string. *)
Definition hit_same_tokens : json :=
  hit [ ("clobTokenIds", JStr (pair_text "A" "A")); ("conditionId", JStr "0xc0") ].

(** A hit whose start time is no timestamp. *)
Definition hit_bad_timestamp : json :=
  hit_between "soon" "2025-11-23T03:30:00Z" tokens_AB.

(** A hit whose list of markets is empty. *)
Definition hit_no_market : json :=
  JObj [ ("title", JStr "Bitcoin Up or Down - November 22, 10:15PM ET");
         ("markets", JArr []) ].

(** Hits that last 1800 and 1801 seconds. *)
Definition hit_1800 : json :=
  hit_between "2025-11-23T03:15:00Z" "2025-11-23T03:45:00Z" tokens_AB.

Definition hit_1801 : json :=
  hit_between "2025-11-23T03:15:00Z" "2025-11-23T03:45:01Z" tokens_AB.

(** The search service of the examples: the same body for every request. *)
Definition serving (hits : list json) : string -> nat -> http_outcome * nat :=
  always (GetStatus 200 (Ok (body_of hits))).

(** The first URL requested at [now_2220]. *)
Definition first_url : string :=
  "https://gamma-api.polymarket.com/public-search?q=Bitcoin+Up+or+Down+November+22+10%3A15PM+ET".

(** The descriptor of the end-to-end scenario: YES is ["A"], NO is ["B"]. *)
Definition market_AB : MarketDescriptor :=
  mk_descriptor (JStr "Bitcoin Up or Down - November 22, 10:15PM ET")
                (JStr "A") (JStr "B") 1763867700000000 1763868600000000
                (JStr "0xc0") JNull.

Definition watcher_AB : MarketWatcher := init market_AB.

(** The instant of [now_2220], five minutes into the window. *)
Definition t_2220 : Z := 1763868012500000.

(** A book snapshot for ["B"] whose asks are listed from high to low. *)
Definition book_B : json :=
  JObj [ ("event_type", JStr "book"); ("asset_id", JStr "B");
         ("asks", JArr [ JObj [("price", JStr "0.60")];
                         JObj [("price", JStr "0.41")] ]) ].


(** A hit whose market and event carry no timestamp at all. *)
Definition hit_without_timestamps : json :=
  JObj [ ("title", JStr "Bitcoin Up or Down - November 22, 10:15PM ET");
         ("markets", JArr [ JObj [ ("conditionId", JStr "0xc0") ] ]) ].

(** The JSON text of an array of one string, and a live hit with only that
    one token id. *)
Definition single_text (a : string) : string :=
  String.append "[" (String.append (quoted a) "]").

Definition hit_one_token : json :=
  hit [ ("clobTokenIds", JStr (single_text "A")) ].

(** The sample runtime, which also decodes that text. *)
Definition sample_runtime_single : Runtime :=
  Build_Runtime
    (fun s => if String.eqb s (single_text "A") then Ok (JArr [JStr "A"])
              else json_loads (Runtime := sample_runtime) s)
    (float_of_str (Runtime := sample_runtime))
    (fromisoformat_et (Runtime := sample_runtime)).

(** A watcher whose two token ids are both ["A"]. *)
Definition watcher_AA : MarketWatcher :=
  init (mk_descriptor (JStr "Bitcoin Up or Down - November 22, 10:15PM ET")
                      (JStr "A") (JStr "A") 1763867700000000 1763868600000000
                      (JStr "0xc0") JNull).


(** Two price-change records: 0.62 for ["A"], and one without [asset_id]. *)
Definition change_A : json :=
  JObj [ ("asset_id", JStr "A"); ("best_ask", JStr "0.62") ].

Definition change_without_id : json := JObj [ ("best_ask", JStr "0.41") ].

(** A cycle at 22:20 in which the stream opens and sends [level1_A_text]
    twice, the second time when the market is over. *)
Definition cycle_2220 : cycle :=
  mk_cycle now_2220 (Ok tt) (Ok tt)
           [ mk_turn t_2220 (Message level1_A_text);
             mk_turn 1763868600000000 (Message level1_A_text) ].

(** A search service that lists the market from its seventh request on. *)
Definition late_listing (url : string) (served : nat) : http_outcome * nat :=
  (GetStatus 200 (Ok (body_of (if Nat.ltb served 6 then [] else [hit_AB]))),
   S served).

(** A best-ask update for ["A"] whose price is the text [inf], and a
    runtime that reads it: [float("inf")] is the infinity. *)
Definition level1_inf_fields : list (string * string) :=
  [ ("event_type", "level1"); ("asset_id", "A"); ("best_ask", "inf") ].

Definition level1_inf_text : string := object_text level1_inf_fields.

(** A price-change record for ["A"] whose price is the text [inf]. *)
Definition change_A_inf : json :=
  JObj [ ("asset_id", JStr "A"); ("best_ask", JStr "inf") ].

Definition sample_runtime_inf : Runtime :=
  Build_Runtime
    (fun s => if String.eqb s level1_inf_text
              then Ok (JObj (map (fun '(k, v) => (k, JStr v)) level1_inf_fields))
              else json_loads (Runtime := sample_runtime) s)
    (fun s => if String.eqb s "inf" then Ok infinity
              else float_of_str (Runtime := sample_runtime) s)
    (fromisoformat_et (Runtime := sample_runtime)).

End Samples.


(* ================================================================== *)
(** ** Facts about discovery.py *)
(* ================================================================== *)

Module DiscoveryFacts.
Import Py Discovery.
#[local] Open Scope py_scope.

(** *** The window clock *)

Lemma dt_cmp_wall (a b : datetime) :
  valid_datetime a -> valid_datetime b ->
  dt_cmp a b = (wall_us a ?= wall_us b).
Proof.
  unfold valid_datetime, dt_cmp, wall_us. intros Ha Hb.
  destruct (Z.compare_spec (ordinal a) (ordinal b));
    [ destruct (Z.compare_spec (hour a) (hour b));
      [ destruct (Z.compare_spec (minute a) (minute b));
        [ destruct (Z.compare_spec (second a) (second b));
          [ destruct (Z.compare_spec (microsecond a) (microsecond b)) | | ] | | ]
      | | ]
    | | ];
    symmetry;
    first [ apply Z.compare_eq_iff; lia
          | apply Z.compare_lt_iff; lia
          | apply Z.compare_gt_iff; lia ].
Qed.

Lemma add_timedelta_spec (d : datetime) (td : Z) :
  valid_datetime d ->
  86400000000 <= wall_us d + td < (MAXORDINAL + 1) * 86400000000 ->
  exists d',
    add_timedelta d td = Ok d' /\ valid_datetime d'
    /\ wall_us d' = wall_us d + td /\ utcoffset d' = utcoffset d.
Proof.
  intros Hd Hrange. unfold add_timedelta.
  set (total := wall_us d + td) in *.
  set (days := total / 86400000000).
  set (rest := total mod 86400000000).
  set (secs := rest / 1000000).
  pose proof (Z.div_mod total 86400000000 ltac:(lia)) as E1.
  pose proof (Z.mod_pos_bound total 86400000000 ltac:(lia)) as B1.
  pose proof (Z.div_mod rest 1000000 ltac:(lia)) as E2.
  pose proof (Z.mod_pos_bound rest 1000000 ltac:(lia)) as B2.
  pose proof (Z.div_mod secs 3600 ltac:(lia)) as E3.
  pose proof (Z.mod_pos_bound secs 3600 ltac:(lia)) as B3.
  pose proof (Z.div_mod (secs mod 3600) 60 ltac:(lia)) as E4.
  pose proof (Z.mod_pos_bound (secs mod 3600) 60 ltac:(lia)) as B4.
  assert (E5 : secs mod 60 = (secs mod 3600) mod 60).
  { symmetry. apply Z.mod_mod_divide. exists 60. reflexivity. }
  fold days rest secs in E1, B1, E2, B2.
  unfold MAXORDINAL in *.
  assert (Hdays : 1 <= days <= 3652059) by lia.
  replace ((0 <? days) && (days <=? 3652059)) with true
    by (symmetry; apply andb_true_iff; split;
        [apply Z.ltb_lt | apply Z.leb_le]; lia).
  eexists; split; [reflexivity|].
  unfold valid_datetime, wall_us, MAXORDINAL; cbn [ordinal hour minute second microsecond utcoffset].
  fold total. rewrite E5.
  repeat split; try lia.
Qed.

Lemma dt_le_wall (a b : datetime) :
  valid_datetime a -> valid_datetime b ->
  wall_us a <= wall_us b -> dt_le a b = true.
Proof.
  intros Ha Hb Hle. unfold dt_le. rewrite (dt_cmp_wall a b Ha Hb).
  destruct (Z.compare_spec (wall_us a) (wall_us b)); trivial; lia.
Qed.

Lemma dt_lt_wall (a b : datetime) :
  valid_datetime a -> valid_datetime b ->
  wall_us a < wall_us b -> dt_lt a b = true.
Proof.
  intros Ha Hb Hlt. unfold dt_lt. rewrite (dt_cmp_wall a b Ha Hb).
  destruct (Z.compare_spec (wall_us a) (wall_us b)); trivial; lia.
Qed.

Lemma quarter_floor (m : Z) :
  0 <= m < 60 -> 0 <= m / 15 * 15 <= m /\ m < m / 15 * 15 + 15.
Proof.
  intros Hm.
  pose proof (Z.div_mod m 15 ltac:(lia)).
  pose proof (Z.mod_pos_bound m 15 ltac:(lia)).
  lia.
Qed.

(** The window exists for a datetime earlier than 23:45 on 9999-12-31. *)
Lemma window_exists (t : datetime) :
  valid_datetime t -> before_last_quarter t ->
  exists start end_, get_window_boundaries t = Ok (start, end_).
Proof.
  intros Hv Hb.
  destruct (quarter_floor (minute t)) as [Hq1 Hq2]; [apply Hv|].
  assert (Hm : minute t < 60) by apply Hv.
  unfold get_window_boundaries, replace_minute.
  set (m := minute t / 15 * 15) in *.
  replace ((0 <=? m) && (m <? 60)) with true
    by (symmetry; apply andb_true_iff; split;
        [apply Z.leb_le | apply Z.ltb_lt]; lia).
  cbn [bind].
  destruct (add_timedelta_spec
              (mk_datetime (ordinal t) (hour t) m 0 0 (utcoffset t))
              (timedelta_minutes 15)) as (end_ & Hadd & _).
  - unfold valid_datetime in *; cbn; lia.
  - unfold before_last_quarter, valid_datetime, wall_us, timedelta_minutes,
      MAXORDINAL in *; cbn; lia.
  - rewrite Hadd. cbn [bind]. eauto.
Qed.

(** C8, amended: for every datetime [t] earlier than 23:45 on 9999-12-31 the
    window is computed; its start keeps the date, the hour and the tzinfo of
    [t], has a minute that is a multiple of 15 and zero seconds and
    microseconds; the end is the start plus 15 minutes; and
    [start <= t < end]. *)
Theorem get_window_boundaries_spec (t : datetime) :
  valid_datetime t -> before_last_quarter t ->
  exists start end_,
    get_window_boundaries t = Ok (start, end_)
    /\ valid_datetime start /\ valid_datetime end_
    /\ ordinal start = ordinal t /\ hour start = hour t
    /\ minute start mod 15 = 0 /\ second start = 0 /\ microsecond start = 0
    /\ utcoffset start = utcoffset t /\ utcoffset end_ = utcoffset t
    /\ wall_us end_ = wall_us start + timedelta_minutes 15
    /\ dt_le start t = true /\ dt_lt t end_ = true.
Proof.
  intros Hv Hb.
  destruct (quarter_floor (minute t)) as [Hq1 Hq2]; [apply Hv|].
  assert (Hm : minute t < 60) by apply Hv.
  unfold get_window_boundaries, replace_minute.
  set (m := minute t / 15 * 15) in *.
  replace ((0 <=? m) && (m <? 60)) with true
    by (symmetry; apply andb_true_iff; split;
        [apply Z.leb_le | apply Z.ltb_lt]; lia).
  cbn [bind].
  set (start := mk_datetime (ordinal t) (hour t) m 0 0 (utcoffset t)).
  assert (Hs : valid_datetime start).
  { unfold valid_datetime in *; cbn; lia. }
  assert (Hw : wall_us start <= wall_us t < wall_us start + timedelta_minutes 15).
  { unfold valid_datetime, wall_us, timedelta_minutes in *; cbn; lia. }
  destruct (add_timedelta_spec start (timedelta_minutes 15) Hs)
    as (end_ & Hadd & He & Hwe & Hoff).
  { unfold before_last_quarter, valid_datetime, wall_us, timedelta_minutes,
      MAXORDINAL in *; cbn; lia. }
  rewrite Hadd. cbn [bind].
  exists start, end_.
  repeat split; try (apply Hs); try (apply He); trivial.
  - unfold start; cbn. apply Z.mod_mul. lia.
  - apply dt_le_wall; trivial; lia.
  - apply dt_lt_wall; trivial; lia.
Qed.

(** C8, the witness: the window of 22:20:12.5 on 2025-11-22. *)
Lemma get_window_boundaries_spec_witness :
  exists start end_,
    get_window_boundaries Samples.now_2220 = Ok (start, end_)
    /\ valid_datetime start /\ valid_datetime end_
    /\ ordinal start = 739577 /\ hour start = 22
    /\ minute start mod 15 = 0 /\ second start = 0 /\ microsecond start = 0
    /\ utcoffset start = Some (-18000) /\ utcoffset end_ = Some (-18000)
    /\ wall_us end_ = wall_us start + timedelta_minutes 15
    /\ dt_le start Samples.now_2220 = true /\ dt_lt Samples.now_2220 end_ = true.
Proof.
  apply (get_window_boundaries_spec Samples.now_2220).
  - unfold valid_datetime, MAXORDINAL; cbn; lia.
  - left. unfold MAXORDINAL; cbn; lia.
Defined.

(** C8, the counterexample: from 23:45 on 9999-12-31 on, [start + 15
    minutes] is no [datetime] and no window is returned. *)
Lemma get_window_boundaries_last_quarter_hour :
  valid_datetime Samples.last_quarter_hour
  /\ get_window_boundaries Samples.last_quarter_hour = Raise OverflowError.
Proof.
  split.
  - unfold valid_datetime, MAXORDINAL; cbn; lia.
  - reflexivity.
Qed.


(** *** The sweep *)

(** Case analysis on the first [bind] of a hypothesis. *)
Ltac bind_inv H :=
  repeat match type of H with
         | context [bind ?r _] =>
             let E := fresh "E" in
             destruct r eqn:E; cbn [bind] in H; [|discriminate H]
         end.

Section SweepFacts.
Context {rt : Runtime}.
Variable World : Type.
Variable http_get : string -> World -> http_outcome * World.

#[local] Abbreviation sweep := (sweep World http_get).
#[local] Abbreviation find_active_window := (find_active_window World http_get).

(** A query that fails is skipped: the request raised, the status is not
    200, or the body could not be decoded. *)
Lemma sweep_skips_failed_query now_et q rest w :
  match fst (http_get (search_url q) w) with
  | GetRaises _ => True
  | GetStatus status body =>
      status <> 200 \/ exists e, body = Raise e
  end ->
  sweep now_et (q :: rest) w =
  let '(r, urls, w2) := sweep now_et rest (snd (http_get (search_url q) w)) in
  (r, search_url q :: urls, w2).
Proof.
  cbn [Discovery.sweep].
  destruct (http_get (search_url q) w) as [resp w1]; cbn [fst snd].
  destruct resp as [e | status body]; [reflexivity|].
  intros [Hst | [e ->]].
  - apply Z.eqb_neq in Hst. now rewrite Hst.
  - now destruct (status =? 200).
Qed.



Lemma title_variants_length (d : datetime) :
  List.length (title_variants d) = 3%nat.
Proof. reflexivity. Qed.


(** *** The two filters *)

Lemma too_long_iff (start_dt end_dt : Z) :
  too_long start_dt end_dt = true <-> 1800 * 1000000 < end_dt - start_dt.
Proof. unfold too_long. apply Z.ltb_lt. Qed.

(** C5: a hit whose timestamps were read is dropped by the duration filter
    exactly when its duration exceeds 1800 seconds: at 1801 seconds it is
    dropped, at 1800 seconds it goes on to the liveness test. *)
Theorem duration_filter (now_et : datetime) (ev m : json) (start_dt end_dt : Z) :
  hit_window ev = Ok (Some (m, start_dt, end_dt)) ->
  (too_long start_dt end_dt = true <-> 1800 * 1000000 < end_dt - start_dt)
  /\ (1800 * 1000000 < end_dt - start_dt -> scan_hit now_et ev = Ok None)
  /\ (end_dt - start_dt <= 1800 * 1000000 ->
      scan_hit now_et ev = if_active now_et ev m start_dt end_dt)
  /\ (end_dt - start_dt = 1801 * 1000000 -> scan_hit now_et ev = Ok None)
  /\ (end_dt - start_dt = 1800 * 1000000 ->
      scan_hit now_et ev = if_active now_et ev m start_dt end_dt).
Proof.
  intros Hhit.
  assert (Hdrop : 1800 * 1000000 < end_dt - start_dt ->
                  scan_hit now_et ev = Ok None).
  { intros Hlong. unfold scan_hit. rewrite Hhit. cbn [bind].
    apply too_long_iff in Hlong. now rewrite Hlong. }
  assert (Hpass : end_dt - start_dt <= 1800 * 1000000 ->
                  scan_hit now_et ev = if_active now_et ev m start_dt end_dt).
  { intros Hshort. unfold scan_hit. rewrite Hhit. cbn [bind].
    destruct (too_long start_dt end_dt) eqn:Hlong; [|reflexivity].
    apply too_long_iff in Hlong. lia. }
  split; [apply too_long_iff|].
  split; [exact Hdrop|]. split; [exact Hpass|].
  split; intros Heq; [apply Hdrop | apply Hpass]; lia.
Qed.

(** C6: a hit that passed the duration filter is accepted by the liveness
    filter exactly when [start_dt <= now < end_dt]; it is accepted at
    [now = start_dt] and dropped at [now = end_dt].  An accepted hit goes
    on to the construction of the descriptor. *)
Theorem liveness_filter (now_et : datetime) (now : Z) (ev m : json)
                        (start_dt end_dt : Z) :
  instant now_et = Ok now ->
  hit_window ev = Ok (Some (m, start_dt, end_dt)) ->
  too_long start_dt end_dt = false ->
  (start_dt <= now < end_dt ->
   scan_hit now_et ev
   = (d <- make_descriptor ev m start_dt end_dt ;; Ok (Some d)))
  /\ (~ (start_dt <= now < end_dt) -> scan_hit now_et ev = Ok None)
  /\ (now = start_dt -> start_dt < end_dt ->
      scan_hit now_et ev
      = (d <- make_descriptor ev m start_dt end_dt ;; Ok (Some d)))
  /\ (now = end_dt -> scan_hit now_et ev = Ok None).
Proof.
  intros Hnow Hhit Hshort.
  assert (Hscan : scan_hit now_et ev
                  = if (start_dt <=? now) && (now <? end_dt)
                    then d <- make_descriptor ev m start_dt end_dt ;; Ok (Some d)
                    else Ok None).
  { unfold scan_hit, if_active. rewrite Hhit. cbn [bind].
    rewrite Hshort, Hnow. reflexivity. }
  assert (Hin : start_dt <= now < end_dt ->
                (start_dt <=? now) && (now <? end_dt) = true).
  { intros [H1 H2]. apply andb_true_iff. split;
      [now apply Z.leb_le | now apply Z.ltb_lt]. }
  assert (Hout : ~ (start_dt <= now < end_dt) ->
                 (start_dt <=? now) && (now <? end_dt) = false).
  { intros Hn. apply andb_false_iff.
    destruct (Z.leb_spec start_dt now); [right | now left].
    apply Z.ltb_ge. lia. }
  rewrite Hscan.
  split; [intros H; now rewrite (Hin H)|].
  split; [intros H; now rewrite (Hout H)|].
  split; [intros -> Hlt; rewrite Hin; [reflexivity | lia]|].
  intros ->. rewrite Hout; [reflexivity | lia].
Qed.

(** *** The descriptor *)

Lemma make_descriptor_ids ev m start_dt end_dt d :
  make_descriptor ev m start_dt end_dt = Ok d ->
  exists c token_ids,
    getitem m "clobTokenIds" = Ok c /\ loads c = Ok token_ids
    /\ index token_ids 0 = Ok (yes_id d) /\ index token_ids 1 = Ok (no_id d).
Proof.
  unfold make_descriptor. intros H. bind_inv H.
  injection H as <-. cbn [yes_id no_id]. eauto 10.
Qed.

Lemma scan_hit_some now_et ev d :
  scan_hit now_et ev = Ok (Some d) ->
  exists markets m start_dt end_dt,
    get_default ev "markets" (JArr [JObj []]) = Ok markets
    /\ index markets 0 = Ok m
    /\ make_descriptor ev m start_dt end_dt = Ok d.
Proof.
  unfold scan_hit. intros H.
  destruct (hit_window ev) as [[[[m s] e]|]|] eqn:Hhit;
    cbn [bind] in H; try discriminate H.
  destruct (too_long s e); [discriminate H|].
  unfold if_active in H. bind_inv H.
  destruct ((s <=? a) && (a <? e)); [|discriminate H].
  bind_inv H. injection H as <-.
  unfold hit_window in Hhit. bind_inv Hhit.
  match type of Hhit with
  | (if ?c then _ else _) = _ => destruct c; [discriminate Hhit|]
  end.
  bind_inv Hhit. injection Hhit as -> -> ->.
  eauto 8.
Qed.

Lemma scan_events_some now_et events d :
  scan_events now_et events = Ok (Some d) ->
  exists ev, In ev events /\ scan_hit now_et ev = Ok (Some d).
Proof.
  induction events as [|ev rest IH]; cbn [scan_events]; intros H;
    [discriminate H|].
  destruct (scan_hit now_et ev) as [[d'|]|] eqn:Hhit; cbn [bind] in H;
    try discriminate H.
  - injection H as ->. exists ev. split; [now left | exact Hhit].
  - destruct (IH H) as (ev' & Hin & Hev'). exists ev'. split; [now right | exact Hev'].
Qed.

Lemma scan_body_some now_et data d :
  scan_body now_et data = Ok (Some d) ->
  exists ev, scan_hit now_et ev = Ok (Some d).
Proof.
  unfold scan_body. intros H. bind_inv H.
  destruct (negb (truthy a)); [discriminate H|].
  bind_inv H. apply scan_events_some in H as (ev & _ & Hev). eauto.
Qed.

Lemma sweep_some now_et queries d :
  forall w, fst (fst (sweep now_et queries w)) = Ok (Some d) ->
  exists ev, scan_hit now_et ev = Ok (Some d).
Proof.
  induction queries as [|q rest IH]; intros w; cbn [Discovery.sweep];
    [discriminate|].
  destruct (http_get (search_url q) w) as [resp w1].
  pose proof (IH w1) as IHw.
  destruct (sweep now_et rest w1) as [[r urls] w2]; cbn [fst] in IHw.
  destruct resp as [e | status body]; cbn [fst]; [exact IHw|].
  destruct (negb (status =? 200)); cbn [fst]; [exact IHw|].
  destruct body as [data | e]; cbn [fst]; [|exact IHw].
  destruct (scan_body now_et data) as [[d'|]|] eqn:Hbody; cbn [fst].
  - intros H. injection H as ->. now apply scan_body_some in Hbody.
  - exact IHw.
  - discriminate.
Qed.

Lemma scan_body_some_hit now_et data d :
  scan_body now_et data = Ok (Some d) ->
  exists events hits ev,
    get_default data "events" (JArr []) = Ok events
    /\ iter events = Ok hits /\ In ev hits
    /\ scan_hit now_et ev = Ok (Some d).
Proof.
  unfold scan_body. intros H. bind_inv H.
  destruct (negb (truthy a)); [discriminate H|].
  bind_inv H. apply scan_events_some in H as (ev & Hin & Hev).
  eauto 8.
Qed.

(** How a sweep ends: either every query was passed and the result is
    [None], or it ended at a query [q] whose response had status 200 and a
    decoded body, the scan of that body is the result, the queries before
    [q] were all passed, and [q] is the last one requested. *)
Lemma sweep_decided now_et queries :
  forall w r urls w',
  sweep now_et queries w = (r, urls, w') ->
  (r = Ok None /\ urls = map search_url queries)
  \/ (r <> Ok None
      /\ exists before q after w0 data,
           queries = (before ++ q :: after)%list
           /\ sweep now_et before w = (Ok None, map search_url before, w0)
           /\ http_get (search_url q) w0 = (GetStatus 200 (Ok data), w')
           /\ scan_body now_et data = r
           /\ urls = map search_url (before ++ [q])).
Proof.
  induction queries as [|q rest IH]; intros w r urls w' H.
  - cbn [Discovery.sweep] in H. injection H as <- <- <-.
    left. split; reflexivity.
  - assert (Hcases :
      (forall l, sweep now_et (q :: l) w
                 = let '(r, u, w2) :=
                     sweep now_et l (snd (http_get (search_url q) w)) in
                   (r, search_url q :: u, w2))
      \/ exists data,
           http_get (search_url q) w
           = (GetStatus 200 (Ok data), snd (http_get (search_url q) w))
           /\ scan_body now_et data <> Ok None
           /\ forall l, sweep now_et (q :: l) w
                        = (scan_body now_et data, [search_url q],
                           snd (http_get (search_url q) w))).
    { cbn [Discovery.sweep].
      destruct (http_get (search_url q) w) as [resp w1]; cbn [snd].
      destruct resp as [e | status body]; [left; reflexivity|].
      destruct (Z.eqb_spec status 200) as [-> | Hne]; cbn [negb];
        [|left; reflexivity].
      destruct body as [data | e]; [|left; reflexivity].
      destruct (scan_body now_et data) as [[d|]|e] eqn:Hbody.
      - right. exists data.
        split; [reflexivity|]. rewrite Hbody.
        split; [discriminate | reflexivity].
      - left. reflexivity.
      - right. exists data.
        split; [reflexivity|]. rewrite Hbody.
        split; [discriminate | reflexivity]. }
    destruct Hcases as [Hskip | (data & Hget & Hne & Hdec)].
    + rewrite Hskip in H.
      destruct (sweep now_et rest (snd (http_get (search_url q) w)))
        as [[r' urls'] w2] eqn:Hrest.
      injection H as <- <- <-.
      destruct (IH _ _ _ _ Hrest)
        as [[-> ->] | (Hne & before & q' & after & w0 & data & -> & Hbefore
                       & Hget & Hbody & ->)].
      * left. split; reflexivity.
      * right. split; [exact Hne|].
        exists (q :: before), q', after, w0, data.
        repeat split; trivial.
        rewrite Hskip, Hbefore. reflexivity.
    + rewrite Hdec in H. injection H as <- <- <-.
      right. split; [exact Hne|].
      exists [], q, rest, w, data. repeat split; trivial.
Qed.

(** C4, amended: the two token ids of a returned descriptor are elements 0
    and 1 of the decoded [clobTokenIds] of the first market of a hit listed
    in the response, of status 200, to the last query requested; nothing
    compares the two. *)
Theorem find_active_window_token_ids (now_et : datetime) (w w' : World)
                                     (d : MarketDescriptor)
                                     (urls : list string) :
  find_active_window now_et w = (Ok (Some d), urls, w') ->
  exists start end_ before q after w0 data events hits ev markets m c token_ids,
    get_window_boundaries now_et = Ok (start, end_)
    /\ (title_variants start ++ title_variants end_ = before ++ q :: after)%list
    /\ sweep now_et before w = (Ok None, map search_url before, w0)
    /\ urls = map search_url (before ++ [q])
    /\ http_get (search_url q) w0 = (GetStatus 200 (Ok data), w')
    /\ get_default data "events" (JArr []) = Ok events
    /\ iter events = Ok hits /\ In ev hits
    /\ get_default ev "markets" (JArr [JObj []]) = Ok markets
    /\ index markets 0 = Ok m
    /\ getitem m "clobTokenIds" = Ok c /\ loads c = Ok token_ids
    /\ index token_ids 0 = Ok (yes_id d) /\ index token_ids 1 = Ok (no_id d).
Proof.
  unfold Discovery.find_active_window.
  destruct (get_window_boundaries now_et) as [[start end_]|e];
    [|discriminate].
  intros H.
  apply sweep_decided in H
    as [[Hnone _] | (_ & before & q & after & w0 & data & Hcands & Hbefore
                     & Hget & Hbody & Hurls)]; [discriminate Hnone|].
  apply scan_body_some_hit in Hbody
    as (events & hits & ev & Hevents & Hiter & Hin & Hev).
  apply scan_hit_some in Hev as (markets & m & s & e & Hmk & Hm & Hd).
  apply make_descriptor_ids in Hd as (c & token_ids & Hc & Htok & Hy & Hn).
  exists start, end_, before, q, after, w0, data, events, hits, ev, markets,
    m, c, token_ids.
  repeat split; assumption.
Qed.

End SweepFacts.

(** *** The theorems at concrete inputs *)

Section Examples.
Import Samples.
#[local] Existing Instance sample_runtime.



(** C5, the witness: a hit of 1801 seconds is dropped, whatever else it
    holds. *)
Lemma duration_filter_witness :
  hit_window hit_1801
  = Ok (Some (JObj (("eventStartTime", JStr "2025-11-23T03:15:00Z")
                    :: ("endDate", JStr "2025-11-23T03:45:01Z") :: tokens_AB),
              1763867700000000, 1763869501000000))
  /\ scan_hit now_2220 hit_1801 = Ok None.
Proof.
  split; [reflexivity|].
  refine (proj1 (proj2 (proj2 (proj2
    (duration_filter now_2220 hit_1801 _ 1763867700000000 1763869501000000
                     eq_refl)))) _).
  reflexivity.
Defined.

(** A hit of exactly 1800 seconds passes the duration filter; at 22:20 it
    is live and becomes the descriptor. *)
Example duration_1800_accepted :
  scan_hit now_2220 hit_1800
  = Ok (Some (mk_descriptor
                (JStr "Bitcoin Up or Down - November 22, 10:15PM ET")
                (JStr "A") (JStr "B") 1763867700000000 1763869500000000
                (JStr "0xc0") JNull)).
Proof. reflexivity. Qed.

(** C6, the witness: at 22:20 the hit for 22:15 to 22:30 is live. *)
Lemma liveness_filter_witness :
  scan_hit now_2220 hit_AB
  = (d <- make_descriptor hit_AB market_record_AB
                          1763867700000000 1763868600000000 ;;
     Ok (Some d)).
Proof.
  refine (proj1 (liveness_filter now_2220 t_2220 hit_AB market_record_AB
                   1763867700000000 1763868600000000 eq_refl eq_refl eq_refl) _).
  unfold t_2220. lia.
Defined.

(** C4, the witness: the ids of the descriptor found for [hit_AB]. *)
Lemma find_active_window_token_ids_witness :
  exists start end_ before q after w0 data events hits ev markets m c token_ids,
    get_window_boundaries now_2220 = Ok (start, end_)
    /\ (title_variants start ++ title_variants end_ = before ++ q :: after)%list
    /\ sweep nat (serving [hit_AB]) now_2220 before O
       = (Ok None, map search_url before, w0)
    /\ [first_url] = map search_url (before ++ [q])
    /\ serving [hit_AB] (search_url q) w0 = (GetStatus 200 (Ok data), 1%nat)
    /\ get_default data "events" (JArr []) = Ok events
    /\ iter events = Ok hits /\ In ev hits
    /\ get_default ev "markets" (JArr [JObj []]) = Ok markets
    /\ index markets 0 = Ok m
    /\ getitem m "clobTokenIds" = Ok c /\ loads c = Ok token_ids
    /\ index token_ids 0 = Ok (yes_id market_AB)
    /\ index token_ids 1 = Ok (no_id market_AB).
Proof.
  apply (find_active_window_token_ids nat (serving [hit_AB]) now_2220 O 1%nat
           market_AB [first_url]).
  reflexivity.
Defined.

(** C4, the counterexample: a market whose [clobTokenIds] names the same
    token twice is returned with [yes_id] equal to [no_id]. *)
Lemma find_active_window_same_token_ids :
  exists d,
    fst (fst (find_active_window nat (serving [hit_same_tokens]) now_2220 O))
    = Ok (Some d)
    /\ yes_id d = no_id d /\ py_eq (yes_id d) (no_id d) = true.
Proof.
  eexists. split; [reflexivity|]. split; reflexivity.
Qed.

(** C1, the failing inputs: a response with status 200 whose hit is live
    but has no [clobTokenIds], one whose start time cannot be parsed, and
    one whose list of markets is empty.  In each case the first query
    raises out of [find_active_window]; the five queries left are never
    made. *)
Theorem find_active_window_raises :
  fst (find_active_window nat (serving [hit_without_tokens]) now_2220 O)
  = (Raise KeyError, [first_url])
  /\ fst (find_active_window nat (serving [hit_bad_timestamp]) now_2220 O)
     = (Raise ValueError, [first_url])
  /\ fst (find_active_window nat (serving [hit_no_market]) now_2220 O)
     = (Raise IndexError, [first_url]).
Proof. repeat split. Qed.

End Examples.

End DiscoveryFacts.

(* ================================================================== *)
(** ** Facts about market_watcher.py *)
(* ================================================================== *)

Module WatcherFacts.
Import Py Watcher.
#[local] Open Scope py_scope.

(** *** The price state *)

Lemma refresh_display_displayable (now : Z) (w : MarketWatcher) :
  displayable w <-> exists ev, refresh_display now w = Ok ev.
Proof.
  unfold displayable, refresh_display. split.
  - intros (y & n & -> & ->). cbn [bind]. eauto.
  - intros (ev & H).
    destruct (cents (prices_YES w)) as [y|]; [|discriminate H].
    destruct (cents (prices_NO w)) as [n|]; [|discriminate H].
    eauto.
Qed.

Lemma update_price_zero (now : Z) (asset_id : json) (price : float)
                        (w : MarketWatcher) :
  PrimFloat.eqb price 0 = true ->
  update_price now asset_id price w = (Ok tt, w, []).
Proof. intros H. unfold update_price. now rewrite H. Qed.

(** A call of [update_price] that returns leaves a state that can be shown. *)
Lemma update_price_ok_displayable now asset_id price w w' evs :
  displayable w ->
  update_price now asset_id price w = (Ok tt, w', evs) ->
  displayable w'.
Proof.
  intros Hw. unfold update_price.
  destruct (PrimFloat.eqb price 0).
  - intros H. injection H as <- _. exact Hw.
  - match goal with
    | |- context [refresh_display now ?s] =>
        destruct (refresh_display now s) as [ev|e] eqn:Href
    end; intros H; [|discriminate H].
    injection H as <- _.
    apply (refresh_display_displayable now). eauto.
Qed.

Lemma reachable_displayable (w : MarketWatcher) :
  reachable w -> displayable w.
Proof.
  induction 1 as [market_data | now asset_id price w w' evs _ IH Hstep].
  - exists 0, 0. split; reflexivity.
  - exact (update_price_ok_displayable _ _ _ _ _ _ IH Hstep).
Qed.

(** C7: an update with price 0.0 changes nothing and shows nothing, and the
    next update with a non-zero price is applied to the state as it was: it
    sets the YES price when the asset id is the YES token, the NO price when
    it is the NO token (and not the YES token), leaves the other price alone,
    and is shown once the new state can be. *)
Theorem update_price_zero_discarded (now : Z) (asset_id : json)
                                    (w : MarketWatcher) :
  update_price now asset_id 0 w = (Ok tt, w, [])
  /\ forall now' asset_id' price,
       PrimFloat.eqb price 0 = false ->
       let w1 := snd (fst (update_price now asset_id 0 w)) in
       let w2 := snd (fst (update_price now' asset_id' price w1)) in
       (py_eq asset_id' (ids_YES w) = true ->
        prices_YES w2 = price /\ prices_NO w2 = prices_NO w)
       /\ (py_eq asset_id' (ids_YES w) = false ->
           py_eq asset_id' (ids_NO w) = true ->
           prices_NO w2 = price /\ prices_YES w2 = prices_YES w)
       /\ (displayable w2 ->
           exists ev, update_price now' asset_id' price w1 = (Ok tt, w2, [ev])).
Proof.
  assert (H0 : update_price now asset_id 0 w = (Ok tt, w, []))
    by (apply update_price_zero; reflexivity).
  split; [exact H0|].
  intros now' asset_id' price Hprice. rewrite H0. cbn [fst snd].
  unfold update_price. rewrite Hprice.
  match goal with
  | |- context [refresh_display now' ?s] => set (w2 := s)
  end.
  destruct (refresh_display now' w2) as [ev|e] eqn:Href; cbn [fst snd];
    (split; [|split]).
  - intros Hyes. unfold w2. rewrite Hyes. split; reflexivity.
  - intros Hyes Hno. unfold w2. rewrite Hyes, Hno. split; reflexivity.
  - intros _. eauto.
  - intros Hyes. unfold w2. rewrite Hyes. split; reflexivity.
  - intros Hyes Hno. unfold w2. rewrite Hyes, Hno. split; reflexivity.
  - intros Hshow.
    apply (refresh_display_displayable now') in Hshow as (ev & Hev).
    rewrite Hev in Href. discriminate Href.
Qed.

(** C10: on every state the watcher can be in, a non-zero price for an asset
    id that is neither the YES nor the NO token changes no price, and the
    display is refreshed all the same. *)
Theorem update_price_unmatched (now : Z) (asset_id : json) (price : float)
                               (w : MarketWatcher) :
  reachable w ->
  PrimFloat.eqb price 0 = false ->
  py_eq asset_id (ids_YES w) = false ->
  py_eq asset_id (ids_NO w) = false ->
  exists y_price n_price,
    cents (prices_YES w) = Ok y_price /\ cents (prices_NO w) = Ok n_price
    /\ update_price now asset_id price w
       = (Ok tt, w, [Display (time_remaining_int w now) y_price n_price]).
Proof.
  intros Hreach Hprice Hyes Hno.
  destruct (reachable_displayable w Hreach) as (y & n & Hy & Hn).
  exists y, n. split; [exact Hy|]. split; [exact Hn|].
  unfold update_price, refresh_display.
  rewrite Hprice, Hyes, Hno, Hy, Hn. reflexivity.
Qed.

(** Without the hypothesis on the state the prices still stay as they are. *)
Lemma update_price_unmatched_state now asset_id price w :
  py_eq asset_id (ids_YES w) = false ->
  py_eq asset_id (ids_NO w) = false ->
  snd (fst (update_price now asset_id price w)) = w.
Proof.
  intros Hyes Hno. unfold update_price. rewrite Hyes, Hno.
  destruct (PrimFloat.eqb price 0); [reflexivity|].
  destruct (refresh_display now w); reflexivity.
Qed.

Section MessageFacts.
Context {rt : Runtime}.

(** *** Messages *)

Lemma process_item_unrecognised now item w :
  unrecognised_item item = true ->
  process_item now item w = (Ok tt, w, []).
Proof.
  unfold unrecognised_item, process_item, known_shape.
  destruct (get item "event_type") as [event_type|]; [|discriminate].
  cbn [with_value]. intros H.
  apply negb_true_iff in H.
  apply orb_false_iff in H as [H Hbook].
  apply orb_false_iff in H as [Hlevel1 Hchange].
  now rewrite Hlevel1, Hchange, Hbook.
Qed.

Lemma process_items_unrecognised now items w :
  forallb unrecognised_item items = true ->
  process_items now items w = (Ok tt, w, []).
Proof.
  induction items as [|item rest IH]; [reflexivity|].
  cbn [forallb process_items]. intros H.
  apply andb_true_iff in H as [Hitem Hrest].
  rewrite (process_item_unrecognised now item w Hitem).
  cbn [and_then]. now rewrite (IH Hrest).
Qed.

Lemma on_message_unrecognised now msg data w :
  json_loads msg = Ok data ->
  unrecognised data = true ->
  on_message now msg w = (Ok tt, w, []).
Proof.
  intros Hloads Hdata. unfold on_message. rewrite Hloads. cbn [with_value].
  destruct data; try reflexivity.
  - now apply process_items_unrecognised.
  - now apply process_item_unrecognised.
Qed.

(** C2, amended: in a turn of the receive loop before expiry, a message
    that decodes to a payload of no known shape is skipped and the loop
    goes on with the next turn; a message that fails to decode ends the
    session through the [except Exception] of the loop, with the watcher as
    it was and nothing shown. *)
Theorem receive_loop_malformed (t : turn) (rest : list turn)
                               (w : MarketWatcher) (msg : string) :
  0 < end_time w - turn_now t ->
  turn_recv t = Message msg ->
  (forall data, json_loads msg = Ok data -> unrecognised data = true ->
                receive_loop (t :: rest) w = receive_loop rest w)
  /\ (forall e, json_loads msg = Raise e ->
                receive_loop (t :: rest) w = (StreamError e, w, [])).
Proof.
  intros Hlive Hrecv.
  assert (Hcheck : (end_time w - turn_now t <=? 0) = false)
    by (apply Z.leb_gt; exact Hlive).
  split.
  - intros data Hloads Hdata. cbn [receive_loop].
    rewrite Hcheck, Hrecv.
    rewrite (on_message_unrecognised _ msg data w Hloads Hdata).
    now destruct (receive_loop rest w) as [[st w'] evs].
  - intros e Hloads. cbn [receive_loop].
    rewrite Hcheck, Hrecv. unfold on_message. now rewrite Hloads.
Qed.

(** The other ways out of a turn: expiry ends the session before anything
    is received, an exception of [ws.recv()] ends it as a stream error, and
    a timeout is answered with a ping and the next turn. *)
Lemma receive_loop_expired (t : turn) (rest : list turn) (w : MarketWatcher) :
  end_time w - turn_now t <= 0 ->
  receive_loop (t :: rest) w = (MarketClosed, w, []).
Proof.
  intros Hexp. cbn [receive_loop].
  now replace (end_time w - turn_now t <=? 0) with true
    by (symmetry; now apply Z.leb_le).
Qed.

Lemma receive_loop_recv_raises (t : turn) (rest : list turn)
                               (w : MarketWatcher) (e : exn) :
  0 < end_time w - turn_now t ->
  turn_recv t = RecvRaises e ->
  receive_loop (t :: rest) w = (StreamError e, w, []).
Proof.
  intros Hlive Hrecv. cbn [receive_loop]. rewrite Hrecv.
  now replace (end_time w - turn_now t <=? 0) with false
    by (symmetry; now apply Z.leb_gt).
Qed.

Lemma receive_loop_timeout (t : turn) (rest : list turn) (w : MarketWatcher) :
  0 < end_time w - turn_now t ->
  turn_recv t = TimedOut (Ok tt) ->
  receive_loop (t :: rest) w
  = let '(st, w', evs) := receive_loop rest w in (st, w', Ping :: evs).
Proof.
  intros Hlive Hrecv. cbn [receive_loop]. rewrite Hrecv.
  now replace (end_time w - turn_now t <=? 0) with false
    by (symmetry; now apply Z.leb_gt).
Qed.

(** C3, amended: for a book message with a non-empty list of asks, the
    price passed to [update_price] for its asset id is the price of the
    first entry of the list. *)
Theorem process_item_book (now : Z) (item aid first : json)
                          (more : list json) (w : MarketWatcher) :
  get item "event_type" = Ok (JStr "book") ->
  get_default item "asks" (JArr []) = Ok (JArr (first :: more)) ->
  getitem item "asset_id" = Ok aid ->
  process_item now item w
  = with_value (price <- getitem first "price" ;; py_float price) w
      (fun p => update_price now aid p w).
Proof.
  intros Htype Hasks Haid. unfold process_item.
  rewrite Htype. cbn [with_value].
  change (py_eq (JStr "book") (JStr "level1")) with false.
  change (py_eq (JStr "book") (JStr "price_change")) with false.
  change (py_eq (JStr "book") (JStr "book")) with true.
  cbv iota. rewrite Hasks. cbn [bind truthy]. rewrite Haid. cbn [bind index nth_error].
  destruct (getitem first "price") as [price|e]; cbn [bind with_value];
    [|reflexivity].
  destruct (py_float price); reflexivity.
Qed.

End MessageFacts.

(** *** The theorems at concrete inputs *)

Section Examples.
Import Samples.
#[local] Existing Instance sample_runtime.

(** C7, the witness: a zero price for ["A"], then 0.62 for ["A"]. *)
Lemma update_price_zero_discarded_witness :
  update_price t_2220 (JStr "A") 0 watcher_AB = (Ok tt, watcher_AB, [])
  /\ prices_YES
       (snd (fst (update_price t_2220 (JStr "A") 0.62
                    (snd (fst (update_price t_2220 (JStr "A") 0 watcher_AB))))))
     = 0.62%float.
Proof.
  destruct (update_price_zero_discarded t_2220 (JStr "A") watcher_AB)
    as [Hzero Hnext].
  split; [exact Hzero|].
  apply (Hnext t_2220 (JStr "A") 0.62%float); reflexivity.
Defined.

(** C10, the witness: a price for ["C"], a token the watcher of ["A"] and
    ["B"] does not follow. *)
Lemma update_price_unmatched_witness :
  exists y_price n_price,
    cents (prices_YES watcher_AB) = Ok y_price
    /\ cents (prices_NO watcher_AB) = Ok n_price
    /\ update_price t_2220 (JStr "C") 0.41 watcher_AB
       = (Ok tt, watcher_AB,
          [Display (time_remaining_int watcher_AB t_2220) y_price n_price]).
Proof.
  apply (update_price_unmatched t_2220 (JStr "C") 0.41%float watcher_AB).
  - apply reachable_init.
  - reflexivity.
  - reflexivity.
  - reflexivity.
Defined.

(** C2, the witness: a message of an unknown shape is skipped, and the
    text [PONG], which is no JSON, ends the session. *)
Lemma receive_loop_malformed_witness :
  receive_loop [ mk_turn t_2220 (Message trade_text);
                 mk_turn t_2220 (Message level1_A_text) ] watcher_AB
  = receive_loop [ mk_turn t_2220 (Message level1_A_text) ] watcher_AB
  /\ receive_loop [ mk_turn t_2220 (Message "PONG");
                    mk_turn t_2220 (Message level1_A_text) ] watcher_AB
     = (StreamError ValueError, watcher_AB, []).
Proof.
  split.
  - apply (proj1 (receive_loop_malformed (rt := sample_runtime)
                    (mk_turn t_2220 (Message trade_text))
                    [ mk_turn t_2220 (Message level1_A_text) ]
                    watcher_AB trade_text eq_refl eq_refl)
             trade eq_refl eq_refl).
  - apply (proj2 (receive_loop_malformed (rt := sample_runtime)
                    (mk_turn t_2220 (Message "PONG"))
                    [ mk_turn t_2220 (Message level1_A_text) ]
                    watcher_AB "PONG" eq_refl eq_refl)
             ValueError eq_refl).
Defined.

(** C2, the counterexample: after a text that cannot be decoded the loop
    does not go on to the next message.  The update that follows [PONG] is
    never applied, while the same update alone is. *)
Lemma undecodable_message_ends_session :
  receive_loop [ mk_turn t_2220 (Message "PONG");
                 mk_turn t_2220 (Message level1_A_text) ] watcher_AB
  = (StreamError ValueError, watcher_AB, [])
  /\ receive_loop [ mk_turn t_2220 (Message level1_A_text) ] watcher_AB
     = (Running, set_YES watcher_AB 0.62, [Display 587 62 0]).
Proof. split; reflexivity. Qed.

(** C3, the witness: the book for ["B"]. *)
Lemma process_item_book_witness :
  process_item t_2220 book_B watcher_AB
  = with_value (price <- getitem (JObj [("price", JStr "0.60")]) "price" ;;
                py_float price) watcher_AB
      (fun p => update_price t_2220 (JStr "B") p watcher_AB).
Proof.
  apply (process_item_book (rt := sample_runtime) t_2220 book_B (JStr "B")
           (JObj [("price", JStr "0.60")]) [ JObj [("price", JStr "0.41")] ]
           watcher_AB); reflexivity.
Defined.

(** C3, the counterexample: a book whose asks are 0.60 and then 0.41.  The
    watcher is given 0.60, the first, and the lowest is 0.41. *)
Lemma book_feeds_first_ask_not_lowest :
  process_item t_2220 book_B watcher_AB
  = update_price t_2220 (JStr "B") 0.6 watcher_AB
  /\ prices_NO (snd (fst (process_item t_2220 book_B watcher_AB))) = 0.6%float
  /\ spec_best_ask [ JObj [("price", JStr "0.60")]; JObj [("price", JStr "0.41")] ]
     = Ok (Some 0.41%float)
  /\ PrimFloat.ltb 0.41 0.6 = true.
Proof. repeat split. Qed.

(** The end-to-end scenario of the specification: 0.62 for ["A"], a book
    for ["B"] whose only ask is 0.41, then the clock passes the end of the
    market.  Both prices are set, two status lines are shown, and the
    session ends by expiry. *)
Example session_until_expiry :
  on_message t_2220 level1_A_text watcher_AB
  = (Ok tt, set_YES watcher_AB 0.62, [Display 587 62 0])
  /\ process_item t_2220
       (JObj [ ("event_type", JStr "book"); ("asset_id", JStr "B");
               ("asks", JArr [ JObj [("price", JStr "0.41")] ]) ])
       (set_YES watcher_AB 0.62)
     = (Ok tt, set_NO (set_YES watcher_AB 0.62) 0.41, [Display 587 62 41])
  /\ receive_loop [ mk_turn 1763868600000000 (Message level1_A_text) ]
                  (set_NO (set_YES watcher_AB 0.62) 0.41)
     = (MarketClosed, set_NO (set_YES watcher_AB 0.62) 0.41, []).
Proof. repeat split. Qed.

End Examples.

End WatcherFacts.

(* ================================================================== *)
(** ** More about discovery.py *)
(* ================================================================== *)

Module DiscoveryMore.
Import Py Discovery DiscoveryFacts.
#[local] Open Scope py_scope.

(** *** Windows *)

Lemma window_explicit (t start end_ : datetime) :
  get_window_boundaries t = Ok (start, end_) ->
  start = mk_datetime (ordinal t) (hour t) (minute t / 15 * 15) 0 0 (utcoffset t)
  /\ add_timedelta start (timedelta_minutes 15) = Ok end_.
Proof.
  unfold get_window_boundaries, replace_minute. intros H.
  destruct ((0 <=? minute t / 15 * 15) && (minute t / 15 * 15 <? 60));
    cbn [bind] in H; [|discriminate H].
  bind_inv H. injection H as <- <-. split; [reflexivity | assumption].
Qed.

Lemma add_timedelta_inv (d d' : datetime) (td : Z) :
  add_timedelta d td = Ok d' ->
  86400000000 <= wall_us d + td < (MAXORDINAL + 1) * 86400000000.
Proof.
  unfold add_timedelta, MAXORDINAL.
  set (total := wall_us d + td).
  pose proof (Z.div_mod total 86400000000 ltac:(lia)) as E.
  pose proof (Z.mod_pos_bound total 86400000000 ltac:(lia)) as B.
  destruct (0 <? total / 86400000000) eqn:H1; [|discriminate].
  destruct (total / 86400000000 <=? 3652059) eqn:H2; [|discriminate].
  intros _. apply Z.ltb_lt in H1. apply Z.leb_le in H2. lia.
Qed.

Lemma add_timedelta_wall (d d' : datetime) (td : Z) :
  valid_datetime d -> add_timedelta d td = Ok d' ->
  valid_datetime d' /\ wall_us d' = wall_us d + td
  /\ utcoffset d' = utcoffset d.
Proof.
  intros Hd Hadd.
  destruct (add_timedelta_spec d td Hd (add_timedelta_inv d d' td Hadd))
    as (d'' & Hadd' & Hv & Hw & Hoff).
  rewrite Hadd in Hadd'. injection Hadd' as <-. auto.
Qed.

Lemma dt_le_wall_inv (a b : datetime) :
  valid_datetime a -> valid_datetime b ->
  dt_le a b = true -> wall_us a <= wall_us b.
Proof.
  intros Ha Hb. unfold dt_le. rewrite (dt_cmp_wall a b Ha Hb).
  destruct (Z.compare_spec (wall_us a) (wall_us b)); intros;
    first [lia | discriminate].
Qed.

Lemma dt_lt_wall_inv (a b : datetime) :
  valid_datetime a -> valid_datetime b ->
  dt_lt a b = true -> wall_us a < wall_us b.
Proof.
  intros Ha Hb. unfold dt_lt. rewrite (dt_cmp_wall a b Ha Hb).
  destruct (Z.compare_spec (wall_us a) (wall_us b)); intros;
    first [lia | discriminate].
Qed.

Lemma window_start_valid (t : datetime) :
  valid_datetime t ->
  valid_datetime
    (mk_datetime (ordinal t) (hour t) (minute t / 15 * 15) 0 0 (utcoffset t)).
Proof.
  intros Hv. destruct (quarter_floor (minute t)) as [Hq1 Hq2]; [apply Hv|].
  unfold valid_datetime in *; cbn; lia.
Qed.

(** X1: the window is the same for every datetime inside it: a second
    datetime with the same tzinfo that lies in [start <= t' < end] of the
    window of [t] has that very window. *)
Theorem window_constant_inside (t t' start end_ : datetime) :
  valid_datetime t -> valid_datetime t' ->
  utcoffset t' = utcoffset t ->
  get_window_boundaries t = Ok (start, end_) ->
  dt_le start t' = true -> dt_lt t' end_ = true ->
  get_window_boundaries t' = Ok (start, end_).
Proof.
  intros Hv Hv' Hoff Hwin Hle Hlt.
  apply window_explicit in Hwin as [-> Hadd].
  pose proof (window_start_valid t Hv) as Hs.
  destruct (add_timedelta_wall _ _ _ Hs Hadd) as (He & Hwe & _).
  apply (dt_le_wall_inv _ _ Hs Hv') in Hle.
  apply (dt_lt_wall_inv _ _ Hv' He) in Hlt.
  rewrite Hwe in Hlt.
  destruct (quarter_floor (minute t)) as [Hq1 Hq2]; [apply Hv|].
  destruct (quarter_floor (minute t')) as [Hq1' Hq2']; [apply Hv'|].
  set (q := minute t / 15) in *. set (q' := minute t' / 15) in *.
  assert (Hfields : ordinal t' = ordinal t /\ hour t' = hour t /\ q' = q).
  { unfold valid_datetime, wall_us, timedelta_minutes in *; cbn in *. lia. }
  destruct Hfields as (Ho & Hh & Hq).
  assert (Hstart : replace_minute t' (minute t' / 15 * 15)
                   = Ok (mk_datetime (ordinal t) (hour t) (q * 15) 0 0 (utcoffset t))).
  { unfold replace_minute. fold q'. rewrite Hq, Ho, Hh, Hoff.
    replace ((0 <=? q * 15) && (q * 15 <? 60)) with true; [reflexivity|].
    symmetry. apply andb_true_iff. split; [apply Z.leb_le | apply Z.ltb_lt];
      unfold valid_datetime in *; lia. }
  unfold get_window_boundaries. rewrite Hstart. cbn [bind].
  rewrite Hadd. reflexivity.
Qed.

(** X2: windows follow one another: the end of a window is the start of the
    window computed from that end, so [title_variants(end)] are the titles
    of the next window. *)
Theorem window_of_end (t start end_ : datetime) :
  valid_datetime t ->
  get_window_boundaries t = Ok (start, end_) ->
  before_last_quarter end_ ->
  exists end2,
    get_window_boundaries end_ = Ok (end_, end2)
    /\ wall_us end2 = wall_us end_ + timedelta_minutes 15.
Proof.
  intros Hv Hwin Hb.
  apply window_explicit in Hwin as [-> Hadd].
  pose proof (window_start_valid t Hv) as Hs.
  destruct (add_timedelta_wall _ _ _ Hs Hadd) as (He & Hwe & _).
  destruct (quarter_floor (minute t)) as [Hq1 Hq2]; [apply Hv|].
  destruct (quarter_floor (minute end_)) as [Hq1' Hq2']; [apply He|].
  set (q := minute t / 15) in *. set (q' := minute end_ / 15) in *.
  assert (Hfields : minute end_ = q' * 15 /\ second end_ = 0
                    /\ microsecond end_ = 0).
  { unfold valid_datetime, wall_us, timedelta_minutes in *; cbn in *. lia. }
  destruct Hfields as (Hm & Hsec & Hus).
  destruct (window_exists end_ He Hb) as (start2 & end2 & Hwin2).
  destruct (window_explicit _ _ _ Hwin2) as [Hstart2 Hadd2].
  assert (Heq : start2 = end_).
  { rewrite Hstart2. fold q'. destruct end_ as [o h m s u off].
    cbn in Hm, Hsec, Hus |- *. now rewrite <- Hm, Hsec, Hus. }
  clear Hstart2. rewrite Heq in Hwin2, Hadd2.
  exists end2. split; [exact Hwin2|].
  now destruct (add_timedelta_wall _ _ _ He Hadd2) as (_ & Hw2 & _).
Qed.

(** X3: for every datetime from 23:45 on 9999-12-31 on, the end of the
    window is out of range and [get_window_boundaries] raises
    [OverflowError]. *)
Theorem window_overflow (t : datetime) :
  valid_datetime t -> ~ before_last_quarter t ->
  get_window_boundaries t = Raise OverflowError.
Proof.
  intros Hv Hlast. unfold before_last_quarter in Hlast.
  destruct (quarter_floor (minute t)) as [Hq1 Hq2]; [apply Hv|].
  assert (Hfields : ordinal t = MAXORDINAL /\ hour t = 23
                    /\ minute t / 15 * 15 = 45).
  { unfold valid_datetime, MAXORDINAL in *. lia. }
  destruct Hfields as (Ho & Hh & Hm).
  unfold get_window_boundaries. rewrite Hm.
  unfold replace_minute. rewrite Ho, Hh. reflexivity.
Qed.

(** *** Titles *)

Lemma ord2ymd_range (n : Z) :
  1 <= n ->
  let '(_, month, day) := ord2ymd n in 1 <= month <= 12 /\ 1 <= day <= 31.
Proof.
  intros Hn. unfold ord2ymd.
  set (n0 := n - 1).
  set (r1 := n0 mod 146097).
  set (n100 := r1 / 36524).
  set (r2 := r1 mod 36524).
  set (n4 := r2 / 1461).
  set (r3 := r2 mod 1461).
  set (n1 := r3 / 365).
  set (r4 := r3 mod 365).
  destruct ((n1 =? 4) || (n100 =? 4)); [lia|].
  set (leapyear := (n1 =? 3) && (negb (n4 =? 24) || (n100 =? 3))).
  pose proof (Z.mod_pos_bound r3 365 ltac:(lia)) as Hr4. fold r4 in Hr4.
  rewrite Z.shiftr_div_pow2 by lia. change (2 ^ 5) with 32.
  set (month := (r4 + 50) / 32).
  pose proof (Z.div_mod (r4 + 50) 32 ltac:(lia)) as E.
  pose proof (Z.mod_pos_bound (r4 + 50) 32 ltac:(lia)) as B.
  fold month in E.
  assert (Hcases : month = 1 \/ month = 2 \/ month = 3 \/ month = 4 \/ month = 5
                   \/ month = 6 \/ month = 7 \/ month = 8 \/ month = 9
                   \/ month = 10 \/ month = 11 \/ month = 12) by lia.
  clearbody month r4 leapyear.
  repeat (destruct Hcases as [-> | Hcases]); try subst month;
    repeat match goal with
           | |- context [DAYS_BEFORE_MONTH ?k] =>
               let v := eval vm_compute in (DAYS_BEFORE_MONTH k) in
               change (DAYS_BEFORE_MONTH k) with v
           | |- context [DAYS_IN_MONTH ?k] =>
               let v := eval vm_compute in (DAYS_IN_MONTH k) in
               change (DAYS_IN_MONTH k) with v
           end;
    destruct leapyear;
    cbn [Z.ltb Z.eqb Z.compare Pos.compare Pos.compare_cont Pos.eqb andb Z.sub
         Z.add Z.opp Z.pos_sub Pos.add Pos.succ Pos.pred_double Z.succ_double
         Z.pred_double Z.double];
    match goal with |- context [?a <? ?b] => destruct (Z.ltb_spec a b) end;
    lia.
Qed.

(** Case analysis on an integer known to lie between two numerals. *)
Ltac split_range x lo hi :=
  let H := fresh "H" in
  assert (H : lo <= x <= hi) by lia;
  repeat match type of H with
         | ?a <= x <= ?b =>
             first [ assert (x = a) by lia; subst x; clear H
                   | let E := fresh "E" in
                     destruct (Z.eq_dec x a) as [E | E];
                     [ subst x; clear H
                     | let H' := fresh "H" in
                       assert (H' : a + 1 <= x <= b) by lia;
                       clear H E; rename H' into H;
                       let v := eval vm_compute in (a + 1) in
                       change (a + 1) with v in H ] ]
         end.

Lemma upper_append (a b : string) :
  upper (String.append a b) = String.append (upper a) (upper b).
Proof. induction a as [|c a IH]; cbn; [reflexivity | now rewrite IH]. Qed.

Lemma upper_two_digits (n : Z) :
  0 <= n < 100 -> upper (two_digits n) = two_digits n.
Proof.
  intros Hn. unfold two_digits.
  pose proof (Z.div_mod n 10 ltac:(lia)) as E.
  pose proof (Z.mod_pos_bound n 10 ltac:(lia)) as B.
  set (hi := n / 10) in *. set (lo := n mod 10) in *.
  clearbody hi lo.
  split_range hi 0 9; split_range lo 0 9; reflexivity.
Qed.

Lemma lstrip_two_digits (n : Z) (rest : string) :
  1 <= n <= 12 ->
  lstrip "0" (String.append (two_digits n) rest)
  = String.append (decimal n) rest.
Proof. intros Hn. split_range n 1 12; reflexivity. Qed.

Lemma upper_decimal (n : Z) :
  1 <= n <= 12 -> upper (decimal n) = decimal n.
Proof. intros Hn. split_range n 1 12; reflexivity. Qed.

Lemma time_str_format (h mi : Z) (off : option Z) (o s u : Z) :
  0 <= h < 24 -> 0 <= mi < 60 ->
  upper (lstrip "0" (strftime_I_M_p (mk_datetime o h mi s u off)))
  = String.append (decimal (if h mod 12 =? 0 then 12 else h mod 12))
      (String.append ":"
         (String.append (two_digits mi) (if h <? 12 then "AM" else "PM"))).
Proof.
  intros Hh Hmi. unfold strftime_I_M_p. cbn [hour minute].
  assert (H12 : 1 <= (if h mod 12 =? 0 then 12 else h mod 12) <= 12).
  { pose proof (Z.mod_pos_bound h 12 ltac:(lia)).
    destruct (Z.eqb_spec (h mod 12) 0); lia. }
  set (h12 := if h mod 12 =? 0 then 12 else h mod 12) in *. clearbody h12.
  assert (Hap : upper (if h <? 12 then "AM" else "PM")
                = (if h <? 12 then "AM" else "PM"))
    by (destruct (h <? 12); reflexivity).
  set (ap := if h <? 12 then "AM" else "PM") in *. clearbody ap.
  rewrite (lstrip_two_digits h12 _ H12).
  rewrite !upper_append, (upper_decimal h12 H12), Hap.
  rewrite (upper_two_digits mi) by lia.
  reflexivity.
Qed.

Lemma date_str_format (month day : Z) :
  1 <= month <= 12 -> 1 <= day <= 31 ->
  str_replace " 0" " "
    (String.append (month_name month) (String.append " " (two_digits day)))
  = String.append (month_name month) (String.append " " (decimal day)).
Proof.
  intros Hm Hd.
  split_range month 1 12; split_range day 1 31; reflexivity.
Qed.

(** X4: the three titles of a window start.  The date is the month name and
    the day without a leading zero, the time is the hour on the 12-hour
    clock without a leading zero, the minute on two digits and AM or PM; the
    three variants differ only in the hyphen and the comma. *)
Theorem title_variants_format (start : datetime) :
  valid_datetime start ->
  let '(_, month, day) := ord2ymd (ordinal start) in
  let date_str := String.append (month_name month)
                    (String.append " " (decimal day)) in
  let h12 := if hour start mod 12 =? 0 then 12 else hour start mod 12 in
  let time_str :=
    String.append (decimal h12)
      (String.append ":"
         (String.append (two_digits (minute start))
                        (if hour start <? 12 then "AM" else "PM"))) in
  1 <= month <= 12 /\ 1 <= day <= 31 /\ 1 <= h12 <= 12
  /\ title_variants start
     = [ String.append "Bitcoin Up or Down "
           (String.append date_str (String.append " " (String.append time_str " ET")));
         String.append "Bitcoin Up or Down - "
           (String.append date_str (String.append ", " (String.append time_str " ET")));
         String.append "Bitcoin Up or Down - "
           (String.append date_str (String.append " " (String.append time_str " ET"))) ].
Proof.
  intros Hv. unfold title_variants, strftime_B_d.
  pose proof (ord2ymd_range (ordinal start) ltac:(apply Hv)) as Hymd.
  destruct (ord2ymd (ordinal start)) as [[y month] day].
  destruct Hymd as [Hmonth Hday].
  assert (Hh : 0 <= hour start < 24) by apply Hv.
  assert (Hmi : 0 <= minute start < 60) by apply Hv.
  rewrite (date_str_format month day Hmonth Hday).
  destruct start as [o h mi s u off]. cbn [hour minute] in *.
  rewrite (time_str_format h mi off o s u Hh Hmi).
  repeat split; try lia.
  - destruct (Z.eqb_spec (h mod 12) 0); [lia|].
    pose proof (Z.mod_pos_bound h 12 ltac:(lia)). lia.
  - destruct (Z.eqb_spec (h mod 12) 0); [lia|].
    pose proof (Z.mod_pos_bound h 12 ltac:(lia)). lia.
Qed.

(** *** The sweep *)

Section SweepMore.
Context {rt : Runtime}.
Variable World : Type.
Variable http_get : string -> World -> http_outcome * World.

#[local] Abbreviation sweep := (sweep World http_get).
#[local] Abbreviation find_active_window := (find_active_window World http_get).



Lemma make_descriptor_times ev m start_dt end_dt d :
  make_descriptor ev m start_dt end_dt = Ok d ->
  start_time d = start_dt /\ end_time d = end_dt.
Proof.
  unfold make_descriptor. intros H. bind_inv H.
  injection H as <-. split; reflexivity.
Qed.

Lemma scan_hit_some_live now_et ev d :
  scan_hit now_et ev = Ok (Some d) ->
  exists now,
    instant now_et = Ok now
    /\ start_time d <= now < end_time d
    /\ end_time d - start_time d <= 1800 * 1000000.
Proof.
  unfold scan_hit. intros H.
  destruct (hit_window ev) as [[[[m s] e]|]|]; cbn [bind] in H;
    try discriminate H.
  destruct (too_long s e) eqn:Hlong; [discriminate H|].
  unfold if_active in H. bind_inv H.
  destruct ((s <=? a) && (a <? e)) eqn:Hlive; [|discriminate H].
  bind_inv H. injection H as <-.
  match goal with
  | Hd : make_descriptor _ _ _ _ = Ok _ |- _ =>
      apply make_descriptor_times in Hd as [-> ->]
  end.
  apply andb_true_iff in Hlive as [H1 H2].
  apply Z.leb_le in H1. apply Z.ltb_lt in H2.
  unfold too_long in Hlong. apply Z.ltb_ge in Hlong.
  exists a. repeat split; trivial.
Qed.

(** X6: every descriptor [find_active_window] returns is of a market that is
    live at the clock reading, [start_time <= now < end_time], and lasts at
    most 1800 seconds. *)
Theorem find_active_window_live_short (now_et : datetime) (w : World)
                                      (d : MarketDescriptor) :
  fst (fst (find_active_window now_et w)) = Ok (Some d) ->
  exists now,
    instant now_et = Ok now
    /\ start_time d <= now < end_time d
    /\ 0 < end_time d - start_time d <= 1800 * 1000000.
Proof.
  unfold Discovery.find_active_window.
  destruct (get_window_boundaries now_et) as [[start end_]|e];
    [|discriminate].
  intros H. apply sweep_some in H as (ev & Hev).
  apply scan_hit_some_live in Hev as (now & Hnow & Hlive & Hshort).
  exists now. repeat split; trivial; lia.
Qed.

(** X7: the sweep of [find_active_window] stops at the query that decides.
    At most six requests are made.  When the result is [None] all six
    candidates were requested, in the order of the candidate list.
    Otherwise the candidates split at a query [q]: the queries before [q]
    were requested in order and all passed, the response to [q] had status
    200 and a decoded body, the result is the scan of that body, and [q] is
    the last request made. *)
Theorem find_active_window_requests (now_et start end_ : datetime)
                                    (w w' : World)
                                    (r : result (option MarketDescriptor))
                                    (urls : list string) :
  get_window_boundaries now_et = Ok (start, end_) ->
  find_active_window now_et w = (r, urls, w') ->
  let candidates := (title_variants start ++ title_variants end_)%list in
  (List.length urls <= 6)%nat
  /\ ((r = Ok None /\ urls = map search_url candidates)
      \/ (r <> Ok None
          /\ exists before q after w0 data,
               candidates = (before ++ q :: after)%list
               /\ sweep now_et before w = (Ok None, map search_url before, w0)
               /\ http_get (search_url q) w0 = (GetStatus 200 (Ok data), w')
               /\ scan_body now_et data = r
               /\ urls = map search_url (before ++ [q]))).
Proof.
  intros Hwin H candidates.
  unfold Discovery.find_active_window in H. rewrite Hwin in H.
  assert (Hlen : List.length candidates = 6%nat).
  { unfold candidates. rewrite length_app, !title_variants_length.
    reflexivity. }
  destruct (sweep_decided World http_get now_et candidates w r urls w' H)
    as [[Hr Hurls] | (Hne & before & q & after & w0 & data & Hcands & Hbefore
                      & Hget & Hbody & Hurls)].
  - split; [|left; split; assumption].
    rewrite Hurls, length_map, Hlen. apply le_n.
  - split.
    + rewrite Hurls, length_map, length_app. cbn [List.length].
      rewrite Hcands, length_app in Hlen. cbn [List.length] in Hlen. lia.
    + right. split; [exact Hne|].
      exists before, q, after, w0, data. repeat split; assumption.
Qed.

(** X8: within one response the first decisive hit wins: hits that are
    filtered out are passed over, and the first hit that is accepted or
    raises decides, whatever follows it. *)
Theorem scan_events_first_decisive (now_et : datetime)
                                   (skipped : list json) (ev : json)
                                   (later : list json) :
  (forall ev', In ev' skipped -> scan_hit now_et ev' = Ok None) ->
  scan_events now_et (skipped ++ ev :: later)
  = match scan_hit now_et ev with
    | Ok None => scan_events now_et later
    | decided => decided
    end.
Proof.
  induction skipped as [|ev' rest IH]; intros Hskip.
  - cbn [app scan_events].
    destruct (scan_hit now_et ev) as [[d|]|e]; reflexivity.
  - cbn [app scan_events].
    rewrite (Hskip ev' (or_introl eq_refl)). cbn [bind].
    apply IH. intros ev'' Hin. apply Hskip. now right.
Qed.

Lemma get_dict (v : json) (k : string) (x : json) :
  get v k = Ok x -> exists kvs, v = JObj kvs.
Proof. destruct v; try discriminate. eauto. Qed.


Lemma hit_window_dict ev x :
  hit_window ev = Ok x -> exists kvs, ev = JObj kvs.
Proof.
  unfold hit_window, get_default. destruct ev; try discriminate. eauto.
Qed.

(** X10: a live hit whose [clobTokenIds] decodes to a list of fewer than two
    ids is not passed over: the scan of the hit raises [IndexError]. *)
Theorem hit_with_short_token_list_raises (now_et : datetime) (now : Z)
                                         (ev m c : json) (start_dt end_dt : Z)
                                         (ids : list json) :
  hit_window ev = Ok (Some (m, start_dt, end_dt)) ->
  too_long start_dt end_dt = false ->
  instant now_et = Ok now -> start_dt <= now < end_dt ->
  getitem m "clobTokenIds" = Ok c -> loads c = Ok (JArr ids) ->
  (List.length ids < 2)%nat ->
  scan_hit now_et ev = Raise IndexError.
Proof.
  intros Hhit Hshort Hnow [H1 H2] Hc Hids Hlen.
  destruct (hit_window_dict ev _ Hhit) as [kvs ->].
  unfold scan_hit, if_active, make_descriptor.
  rewrite Hhit. cbn [bind]. rewrite Hshort, Hnow. cbn [bind].
  replace ((start_dt <=? now) && (now <? end_dt)) with true
    by (symmetry; apply andb_true_iff; split;
        [now apply Z.leb_le | now apply Z.ltb_lt]).
  rewrite Hc. cbn [bind]. rewrite Hids. cbn [bind get_default].
  destruct ids as [|y [|n more]]; cbn in Hlen |- *; try reflexivity; lia.
Qed.

End SweepMore.

(** *** The theorems at concrete inputs *)

Section Examples.
Import Samples.

Lemma now_2220_valid : valid_datetime now_2220.
Proof. unfold valid_datetime, MAXORDINAL; cbn; lia. Qed.

(** X1, the witness: the last microsecond of the window of 22:20. *)
Lemma window_constant_inside_witness :
  get_window_boundaries (mk_datetime 739577 22 29 59 999999 (Some (-18000)))
  = Ok (mk_datetime 739577 22 15 0 0 (Some (-18000)),
        mk_datetime 739577 22 30 0 0 (Some (-18000))).
Proof.
  apply (window_constant_inside now_2220).
  - exact now_2220_valid.
  - unfold valid_datetime, MAXORDINAL; cbn; lia.
  - reflexivity.
  - reflexivity.
  - reflexivity.
  - reflexivity.
Defined.

(** X2, the witness: the window after that of 22:20. *)
Lemma window_of_end_witness :
  exists end2,
    get_window_boundaries (mk_datetime 739577 22 30 0 0 (Some (-18000)))
    = Ok (mk_datetime 739577 22 30 0 0 (Some (-18000)), end2)
    /\ wall_us end2
       = wall_us (mk_datetime 739577 22 30 0 0 (Some (-18000)))
         + timedelta_minutes 15.
Proof.
  apply (window_of_end now_2220 (mk_datetime 739577 22 15 0 0 (Some (-18000)))).
  - exact now_2220_valid.
  - reflexivity.
  - left. unfold MAXORDINAL; cbn; lia.
Defined.

(** X3, the witness: 23:50 on 9999-12-31. *)
Lemma window_overflow_witness :
  get_window_boundaries last_quarter_hour = Raise OverflowError.
Proof.
  apply window_overflow.
  - unfold valid_datetime, MAXORDINAL; cbn; lia.
  - unfold before_last_quarter, MAXORDINAL; cbn; lia.
Defined.

(** X4, the witness: the titles for 10:15PM on November 22 and for 9:05AM
    on November 3. *)
Lemma title_variants_format_witness :
  title_variants (mk_datetime 739577 22 15 0 0 (Some (-18000)))
  = [ "Bitcoin Up or Down November 22 10:15PM ET";
      "Bitcoin Up or Down - November 22, 10:15PM ET";
      "Bitcoin Up or Down - November 22 10:15PM ET" ]
  /\ title_variants (mk_datetime 739558 9 5 0 0 (Some (-18000)))
     = [ "Bitcoin Up or Down November 3 9:05AM ET";
         "Bitcoin Up or Down - November 3, 9:05AM ET";
         "Bitcoin Up or Down - November 3 9:05AM ET" ].
Proof.
  split.
  - refine (proj2 (proj2 (proj2
      (title_variants_format (mk_datetime 739577 22 15 0 0 (Some (-18000))) _)))).
    unfold valid_datetime, MAXORDINAL; cbn; lia.
  - refine (proj2 (proj2 (proj2
      (title_variants_format (mk_datetime 739558 9 5 0 0 (Some (-18000))) _)))).
    unfold valid_datetime, MAXORDINAL; cbn; lia.
Defined.



(** X6, the witness: the market found at 22:20. *)
Lemma find_active_window_live_short_witness :
  exists now,
    instant now_2220 = Ok now
    /\ start_time market_AB <= now < end_time market_AB
    /\ 0 < end_time market_AB - start_time market_AB <= 1800 * 1000000.
Proof.
  apply (find_active_window_live_short (rt := sample_runtime)
           nat (serving [hit_AB]) now_2220 O market_AB).
  reflexivity.
Defined.

(** X7, the witness: the first query finds the market, so it is the only
    request made. *)
Lemma find_active_window_requests_witness :
  let candidates :=
    (title_variants (mk_datetime 739577 22 15 0 0 (Some (-18000)))
     ++ title_variants (mk_datetime 739577 22 30 0 0 (Some (-18000))))%list in
  (List.length [first_url] <= 6)%nat
  /\ ((Ok (Some market_AB) = Ok None
       /\ [first_url] = map search_url candidates)
      \/ (Ok (Some market_AB) <> Ok None
          /\ exists before q after w0 data,
               candidates = (before ++ q :: after)%list
               /\ sweep (rt := sample_runtime) nat (serving [hit_AB])
                    now_2220 before O
                  = (Ok None, map search_url before, w0)
               /\ serving [hit_AB] (search_url q) w0
                  = (GetStatus 200 (Ok data), 1%nat)
               /\ scan_body (rt := sample_runtime) now_2220 data
                  = Ok (Some market_AB)
               /\ [first_url] = map search_url (before ++ [q]))).
Proof.
  apply (find_active_window_requests (rt := sample_runtime)
           nat (serving [hit_AB]) now_2220
           (mk_datetime 739577 22 15 0 0 (Some (-18000)))
           (mk_datetime 739577 22 30 0 0 (Some (-18000)))
           O 1%nat (Ok (Some market_AB)) [first_url]);
    reflexivity.
Defined.

(** X8, the witness: a hit that is too long and a hit without timestamps
    are passed over, the live hit is returned, and the hit behind it, which
    has no token ids, is not looked at. *)
Lemma scan_events_first_decisive_witness :
  scan_events (rt := sample_runtime) now_2220
    ([hit_1801; hit_without_timestamps] ++ hit_AB :: [hit_without_tokens])
  = Ok (Some market_AB).
Proof.
  apply (scan_events_first_decisive (rt := sample_runtime) now_2220
           [hit_1801; hit_without_timestamps] hit_AB [hit_without_tokens]).
  intros ev' [<- | [<- | []]]; reflexivity.
Defined.


(** X10, the witness: a live hit with a single token id. *)
Lemma hit_with_short_token_list_raises_witness :
  scan_hit (rt := sample_runtime_single) now_2220 hit_one_token
  = Raise IndexError.
Proof.
  apply (hit_with_short_token_list_raises (rt := sample_runtime_single)
           now_2220 t_2220 hit_one_token
           (JObj (("eventStartTime", JStr "2025-11-23T03:15:00Z")
                  :: ("endDate", JStr "2025-11-23T03:30:00Z")
                  :: [ ("clobTokenIds", JStr (single_text "A")) ]))
           (JStr (single_text "A"))
           1763867700000000 1763868600000000 [JStr "A"]);
    try reflexivity.
  - unfold t_2220. lia.
  - cbn. lia.
Defined.

End Examples.

End DiscoveryMore.

(* ================================================================== *)
(** ** More about market_watcher.py *)
(* ================================================================== *)

Module WatcherMore.
Import Py Watcher WatcherFacts.
#[local] Open Scope py_scope.

(** *** What a session keeps *)

Section Invariant.
Context {rt : Runtime}.
Variables P E : MarketWatcher -> Prop.
Hypothesis P_E : forall w, P w -> E w.
Hypothesis update_keeps :
  forall now asset_id price w, P w -> keeps P E (update_price now asset_id price w).

Lemma with_value_keeps {A : Type} (r : result A) (w : MarketWatcher)
                       (k : A -> outcome) :
  P w -> (forall a, keeps P E (k a)) -> keeps P E (with_value r w k).
Proof.
  intros Hw Hk. destruct r as [a|e]; cbn [with_value keeps]; auto.
Qed.

Lemma and_then_keeps (o : outcome) (k : MarketWatcher -> outcome) :
  keeps P E o -> (forall w, P w -> keeps P E (k w)) ->
  keeps P E (and_then o k).
Proof.
  intros Ho Hk. destruct o as [[[u|e] w] evs]; cbn [and_then keeps] in *;
    [|exact Ho].
  specialize (Hk w Ho). now destruct (k w) as [[[u'|e'] w'] evs'].
Qed.

Lemma price_change_keeps now c w : P w -> keeps P E (price_change now c w).
Proof.
  intros Hw. unfold price_change. apply with_value_keeps; [exact Hw|].
  intros [aid p]. now apply update_keeps.
Qed.

Lemma price_changes_keeps now cs :
  forall w, P w -> keeps P E (price_changes now cs w).
Proof.
  induction cs as [|c rest IH]; intros w Hw; [exact Hw|].
  cbn [price_changes]. apply and_then_keeps; [now apply price_change_keeps|].
  exact IH.
Qed.

Lemma process_item_keeps now item w : P w -> keeps P E (process_item now item w).
Proof.
  intros Hw. unfold process_item. apply with_value_keeps; [exact Hw|].
  intros event_type.
  destruct (py_eq event_type (JStr "level1")).
  { apply with_value_keeps; [exact Hw|].
    intros [[aid p]|]; [now apply update_keeps | exact Hw]. }
  destruct (py_eq event_type (JStr "price_change")).
  { apply with_value_keeps; [exact Hw|].
    intros cs. now apply price_changes_keeps. }
  destruct (py_eq event_type (JStr "book")); [|exact Hw].
  apply with_value_keeps; [exact Hw|].
  intros [[aid p]|]; [now apply update_keeps | exact Hw].
Qed.

Lemma process_items_keeps now items :
  forall w, P w -> keeps P E (process_items now items w).
Proof.
  induction items as [|item rest IH]; intros w Hw; [exact Hw|].
  cbn [process_items]. apply and_then_keeps; [now apply process_item_keeps|].
  exact IH.
Qed.

Lemma on_message_keeps now msg w : P w -> keeps P E (on_message now msg w).
Proof.
  intros Hw. unfold on_message. apply with_value_keeps; [exact Hw|].
  intros data. destruct data; try exact Hw.
  - now apply process_items_keeps.
  - now apply process_item_keeps.
Qed.

Lemma receive_loop_keeps turns :
  forall w, P w ->
  let '(st, w', _) := receive_loop turns w in
  match st with
  | StreamError _ => E w'
  | _ => P w'
  end.
Proof.
  induction turns as [|t rest IH]; intros w Hw; [exact Hw|].
  cbn [receive_loop].
  destruct (end_time w - turn_now t <=? 0); [exact Hw|].
  destruct (turn_recv t) as [msg | [u|e] | e]; auto.
  - pose proof (on_message_keeps (turn_now t) msg w Hw) as Hmsg.
    destruct (on_message (turn_now t) msg w) as [[[u|e] w'] evs];
      cbn [keeps] in Hmsg; [|exact Hmsg].
    specialize (IH w' Hmsg).
    now destruct (receive_loop rest w') as [[st w''] evs'].
  - specialize (IH w Hw).
    now destruct (receive_loop rest w) as [[st w'] evs].
Qed.

End Invariant.

Lemma update_price_state now asset_id price w :
  snd (fst (update_price now asset_id price w))
  = if PrimFloat.eqb price 0 then w
    else if py_eq asset_id (ids_YES w) then set_YES w price
    else if py_eq asset_id (ids_NO w) then set_NO w price
    else w.
Proof.
  unfold update_price. destruct (PrimFloat.eqb price 0); [reflexivity|].
  match goal with
  | |- context [refresh_display now ?s] => destruct (refresh_display now s)
  end; reflexivity.
Qed.

Lemma keeps_state (P : MarketWatcher -> Prop) (o : outcome) :
  P (snd (fst o)) -> keeps P P o.
Proof. destruct o as [[[u|e] w] evs]; cbn; auto. Qed.

Section Sessions.
Context {rt : Runtime}.

(** X11: a session never changes what the watcher follows: after any
    sequence of turns, however the session ends, the two token ids, the end
    time, the title and the condition id are those the watcher started
    with. *)
Theorem receive_loop_same_market (turns : list turn) (w : MarketWatcher) :
  same_market w (snd (fst (receive_loop turns w))).
Proof.
  pose proof (receive_loop_keeps (same_market w) (same_market w)
                (fun _ H => H)) as Hkeep.
  assert (Hloop : let '(st, w', _) := receive_loop turns w in
                  match st with
                  | StreamError _ => same_market w w'
                  | _ => same_market w w'
                  end).
  { apply Hkeep; [|repeat split].
    intros now asset_id price w1 Hw1. apply keeps_state.
    rewrite update_price_state.
    destruct (PrimFloat.eqb price 0); [exact Hw1|].
    destruct (py_eq asset_id (ids_YES w1)); [exact Hw1|].
    destruct (py_eq asset_id (ids_NO w1)); exact Hw1. }
  destruct (receive_loop turns w) as [[st w'] evs]; cbn [fst snd].
  now destruct st.
Qed.

(** X12: when the two token ids of the watcher are the same value, every
    matching update goes to the YES price: the NO price stays what it was
    for the whole session. *)
Theorem same_ids_freeze_no_price (turns : list turn) (w : MarketWatcher) :
  ids_NO w = ids_YES w ->
  prices_NO (snd (fst (receive_loop turns w))) = prices_NO w.
Proof.
  intros Hids.
  set (P := fun w' : MarketWatcher =>
              ids_NO w' = ids_YES w' /\ prices_NO w' = prices_NO w).
  pose proof (receive_loop_keeps P P (fun _ H => H)) as Hkeep.
  assert (Hloop : let '(st, w', _) := receive_loop turns w in
                  match st with
                  | StreamError _ => P w'
                  | _ => P w'
                  end).
  { apply Hkeep; [|split; [exact Hids | reflexivity]].
    intros now asset_id price w1 [Hids1 Hno1]. apply keeps_state.
    rewrite update_price_state.
    destruct (PrimFloat.eqb price 0); [now split|].
    rewrite Hids1.
    destruct (py_eq asset_id (ids_YES w1)); now split. }
  destruct (receive_loop turns w) as [[st w'] evs]; cbn [fst snd].
  destruct st; apply Hloop.
Qed.

(** X18: the prices of a running session can always be shown: from a state
    whose prices can be shown, a session that has not ended in a stream
    error leaves such a state. *)
Theorem receive_loop_displayable (turns : list turn) (w : MarketWatcher) :
  displayable w ->
  (forall e, fst (fst (receive_loop turns w)) <> StreamError e) ->
  displayable (snd (fst (receive_loop turns w))).
Proof.
  intros Hw Hst.
  pose proof (receive_loop_keeps displayable (fun _ => True)
                (fun _ _ => I)) as Hkeep.
  assert (Hloop : let '(st, w', _) := receive_loop turns w in
                  match st with
                  | StreamError _ => True
                  | _ => displayable w'
                  end).
  { apply Hkeep; [|exact Hw].
    intros now asset_id price w1 Hw1.
    destruct (update_price now asset_id price w1) as [[[u|e] w'] evs] eqn:Hup;
      cbn [keeps]; [|exact I].
    destruct u. exact (update_price_ok_displayable _ _ _ _ _ _ Hw1 Hup). }
  destruct (receive_loop turns w) as [[st w'] evs]; cbn [fst snd] in *.
  destruct st; try exact Hloop. now destruct (Hst e).
Qed.

End Sessions.

(** *** Updates *)

(** X13: the last write wins: after two updates for the same asset id, the
    second with a non-zero price, the prices are what the second update
    alone would have left. *)
Theorem update_price_last_wins (now1 now2 : Z) (asset_id : json)
                               (price1 price2 : float) (w : MarketWatcher) :
  PrimFloat.eqb price2 0 = false ->
  snd (fst (update_price now2 asset_id price2
              (snd (fst (update_price now1 asset_id price1 w)))))
  = snd (fst (update_price now2 asset_id price2 w)).
Proof.
  intros Hp2. rewrite !update_price_state, Hp2.
  destruct (PrimFloat.eqb price1 0); [reflexivity|].
  destruct (py_eq asset_id (ids_YES w)) eqn:Hyes.
  - cbn [set_YES ids_YES]. now rewrite Hyes.
  - destruct (py_eq asset_id (ids_NO w)) eqn:Hno.
    + cbn [set_NO ids_YES ids_NO]. now rewrite Hyes, Hno.
    + now rewrite Hyes, Hno.
Qed.

(** For the YES token and a non-zero price whose [int(price * 100)] raises,
    [update_price] first stores the price and then raises out of
    [refresh_display]. *)
Lemma update_price_unshowable (now : Z) (asset_id : json)
                                           (price : float) (w : MarketWatcher)
                                           (e : exn) :
  PrimFloat.eqb price 0 = false ->
  py_eq asset_id (ids_YES w) = true ->
  cents price = Raise e ->
  update_price now asset_id price w = (Raise e, set_YES w price, []).
Proof.
  intros Hprice Hyes Hcents. unfold update_price, refresh_display.
  rewrite Hprice, Hyes. cbn [set_YES prices_YES]. now rewrite Hcents.
Qed.

Section Messages.
Context {rt : Runtime}.

(** *** Messages *)


(** X15: a missing [asset_id] is not ignored where the code subscripts:
    a price-change record without [asset_id], and a book with asks but
    without [asset_id], raise [KeyError] and leave the watcher as it was. *)
Theorem missing_asset_id_raises (now : Z) (w : MarketWatcher) :
  (forall fields,
      dict_get fields "asset_id" = None ->
      price_change now (JObj fields) w = (Raise KeyError, w, []))
  /\ (forall fields asks,
         dict_get fields "event_type" = Some (JStr "book") ->
         dict_get fields "asks" = Some asks -> truthy asks = true ->
         dict_get fields "asset_id" = None ->
         process_item now (JObj fields) w = (Raise KeyError, w, [])).
Proof.
  split.
  - intros fields Hmissing. unfold price_change, getitem.
    now rewrite Hmissing.
  - intros fields asks Htype Hasks Htrue Hmissing.
    unfold process_item, get, get_default, getitem.
    rewrite Htype. cbn [with_value].
    change (py_eq (JStr "book") (JStr "level1")) with false.
    change (py_eq (JStr "book") (JStr "price_change")) with false.
    change (py_eq (JStr "book") (JStr "book")) with true.
    cbv iota. rewrite Hasks. cbn [bind]. rewrite Htrue, Hmissing.
    reflexivity.
Qed.

(** X19: a best ask that cannot be shown ends the session, and is stored
    all the same: a level1 message for the YES token whose price is not
    zero and whose [int(price * 100)] raises (an infinity or [nan]) is
    written into the YES price, nothing is shown, and the loop ends with
    the stream error that [refresh_display] raised. *)
Theorem unshowable_price_ends_session (t : turn) (rest : list turn)
                                      (w : MarketWatcher) (msg : string)
                                      (fields : list (string * json))
                                      (aid ask : json) (price : float)
                                      (e : exn) :
  0 < end_time w - turn_now t ->
  turn_recv t = Message msg ->
  json_loads msg = Ok (JObj fields) ->
  dict_get fields "event_type" = Some (JStr "level1") ->
  dict_get fields "asset_id" = Some aid -> truthy aid = true ->
  dict_get fields "best_ask" = Some ask -> truthy ask = true ->
  py_float ask = Ok price -> PrimFloat.eqb price 0 = false ->
  py_eq aid (ids_YES w) = true ->
  cents price = Raise e ->
  receive_loop (t :: rest) w = (StreamError e, set_YES w price, []).
Proof.
  intros Hlive Hrecv Hloads Htype Haid Haid_t Hask Hask_t Hfloat Hprice Hyes
         Hcents.
  cbn [receive_loop].
  replace (end_time w - turn_now t <=? 0) with false
    by (symmetry; now apply Z.leb_gt).
  rewrite Hrecv. unfold on_message. rewrite Hloads. cbn [with_value].
  unfold process_item, get, get_default. rewrite Htype. cbn [with_value].
  change (py_eq (JStr "level1") (JStr "level1")) with true. cbv iota.
  rewrite Haid, Hask. cbn [bind]. rewrite Haid_t, Hask_t. cbn [andb].
  rewrite Hfloat. cbn [bind with_value].
  now rewrite (update_price_unshowable _ aid price w e Hprice Hyes Hcents).
Qed.

Lemma and_then_assoc (o : outcome) (k1 k2 : MarketWatcher -> outcome) :
  and_then (and_then o k1) k2 = and_then o (fun w => and_then (k1 w) k2).
Proof.
  destruct o as [[[u|e] w] evs]; cbn [and_then]; [|reflexivity].
  destruct (k1 w) as [[[u1|e1] w1] evs1]; cbn [and_then]; [|reflexivity].
  destruct (k2 w1) as [[r2 w2] evs2]. now rewrite app_assoc.
Qed.

Lemma and_then_ext (o : outcome) (k1 k2 : MarketWatcher -> outcome) :
  (forall w, k1 w = k2 w) -> and_then o k1 = and_then o k2.
Proof.
  intros Hk. destruct o as [[[u|e] w] evs]; cbn [and_then]; [|reflexivity].
  now rewrite Hk.
Qed.

Lemma and_then_ok_nil (w : MarketWatcher) (k : MarketWatcher -> outcome) :
  and_then (Ok tt, w, []) k = k w.
Proof. cbn [and_then]. now destruct (k w) as [[r w'] evs]. Qed.

Lemma price_changes_app (now : Z) (before after : list json) :
  forall w,
  price_changes now (before ++ after) w
  = and_then (price_changes now before w) (price_changes now after).
Proof.
  induction before as [|c rest IH]; intros w.
  - cbn [app price_changes]. now rewrite and_then_ok_nil.
  - cbn [app price_changes]. rewrite and_then_assoc.
    apply and_then_ext. exact IH.
Qed.

(** X16: a batch of price changes is applied record by record and never
    rolled back.  When the records before [c] were applied and [c] raises,
    in whatever state [c] itself leaves the watcher, the batch raises the
    same exception; the watcher is the one [c] left on top of the records
    before it, the status lines shown up to the raise stay, and the records
    after [c] are not applied. *)
Theorem price_changes_partial (now : Z) (before after : list json) (c : json)
                              (w w1 w2 : MarketWatcher)
                              (evs evs2 : list event) (e : exn) :
  price_changes now before w = (Ok tt, w1, evs) ->
  price_change now c w1 = (Raise e, w2, evs2) ->
  price_changes now (before ++ c :: after) w
  = (Raise e, w2, (evs ++ evs2)%list).
Proof.
  intros Hbefore Hc. rewrite price_changes_app, Hbefore.
  cbn [and_then price_changes]. rewrite Hc. reflexivity.
Qed.

(** X17: turns compose: running the loop over two runs of turns is running
    it over the first and, if the session is still open, over the second
    from the state reached, the events of the second after those of the
    first.  Once a session has ended, no later turn is looked at. *)
Theorem receive_loop_app (first second : list turn) (w : MarketWatcher) :
  receive_loop (first ++ second) w
  = match receive_loop first w with
    | (Running, w1, evs1) =>
        let '(st, w2, evs2) := receive_loop second w1 in
        (st, w2, (evs1 ++ evs2)%list)
    | ended => ended
    end.
Proof.
  revert w. induction first as [|t rest IH]; intros w.
  - cbn [app receive_loop].
    now destruct (receive_loop second w) as [[st w2] evs2].
  - cbn [app receive_loop].
    destruct (end_time w - turn_now t <=? 0); [reflexivity|].
    destruct (turn_recv t) as [msg | [u|e] | e]; try reflexivity.
    + destruct (on_message (turn_now t) msg w) as [[[u|e] w'] evs];
        [|reflexivity].
      rewrite IH.
      destruct (receive_loop rest w') as [[st w1] evs1].
      destruct st; try reflexivity.
      destruct (receive_loop second w1) as [[st2 w2] evs2].
      now rewrite app_assoc.
    + rewrite IH.
      destruct (receive_loop rest w) as [[st w1] evs1].
      destruct st; try reflexivity.
      now destruct (receive_loop second w1) as [[st2 w2] evs2].
Qed.

End Messages.

(** *** The daemon *)

Section Daemon.
Context {rt : Runtime}.
Variable World : Type.
Variable http_get : string -> World -> Discovery.http_outcome * World.

#[local] Abbreviation main_loop := (main_loop World http_get).
#[local] Abbreviation find_active_window :=
  (Discovery.find_active_window World http_get).

Lemma sleeps_app (a b : list action) :
  sleeps (a ++ b) = (sleeps a ++ sleeps b)%list.
Proof.
  induction a as [|x a IH]; [reflexivity|].
  destruct x; cbn [app sleeps]; now rewrite IH.
Qed.

Lemma sleeps_gets (urls : list string) : sleeps (map Get urls) = [].
Proof. induction urls as [|u urls IH]; [reflexivity | exact IH]. Qed.

Lemma sleeps_outs (evs : list event) : sleeps (map Out evs) = [].
Proof. induction evs as [|e evs IH]; [reflexivity | exact IH]. Qed.

Lemma sleeps_session (c : cycle) (market : Discovery.MarketDescriptor) :
  sleeps (snd (session c market)) = [].
Proof.
  unfold session.
  destruct (cycle_connect c); [|reflexivity].
  destruct (cycle_send c); [|reflexivity].
  destruct (receive_loop (cycle_turns c) (init market)) as [[st w] evs].
  cbn [snd sleeps]. apply sleeps_outs.
Qed.


(** X21: the daemon pauses after every cycle: every pause is of 30 or of 4
    seconds, and when the daemon is back at the top of its loop it has
    paused exactly once for every cycle it ran. *)
Theorem main_loop_pauses (cycles : list cycle) (w : World) :
  Forall (fun seconds => seconds = 30 \/ seconds = 4)
         (sleeps (snd (fst (main_loop cycles w))))
  /\ (fst (fst (main_loop cycles w)) = Scanning ->
      List.length (sleeps (snd (fst (main_loop cycles w))))
      = List.length cycles).
Proof.
  revert w. induction cycles as [|c rest IH]; intros w; cbn [Watcher.main_loop].
  - split; [constructor | reflexivity].
  - destruct (find_active_window (cycle_now c) w) as [[found urls] w1].
    specialize (IH w1).
    destruct (main_loop rest w1) as [[d acts'] w2]; cbn [fst snd] in IH.
    destruct IH as [IHall IHlen].
    destruct found as [[market|]|e0]; cbn [fst snd].
    + pose proof (sleeps_session c market) as Hsession.
      destruct (session c market) as [st acts]; cbn [snd] in Hsession.
      destruct st; cbn [fst snd];
        rewrite ?sleeps_app, ?sleeps_gets, ?Hsession; cbn [app sleeps];
        (split; [try constructor; auto | ]);
        try discriminate;
        intros Hd; cbn [List.length]; now rewrite (IHlen Hd).
    + rewrite sleeps_app, sleeps_gets. cbn [app sleeps List.length].
      split; [constructor; auto|]. intros Hd. now rewrite (IHlen Hd).
    + rewrite sleeps_gets. split; [constructor | discriminate].
Qed.

End Daemon.

(** *** The theorems at concrete inputs *)

Section Examples.
Import Samples.

(** X12, the witness: a best ask for ["A"] reaches the watcher of ["A"] and
    ["A"]; its NO price stays 0. *)
Lemma same_ids_freeze_no_price_witness :
  prices_NO (snd (fst (receive_loop (rt := sample_runtime)
                         [ mk_turn t_2220 (Message level1_A_text) ] watcher_AA)))
  = 0%float.
Proof.
  apply (same_ids_freeze_no_price (rt := sample_runtime)
           [ mk_turn t_2220 (Message level1_A_text) ] watcher_AA).
  reflexivity.
Defined.

(** X18, the witness: the watcher of ["A"] and ["B"] after one update. *)
Lemma receive_loop_displayable_witness :
  displayable
    (snd (fst (receive_loop (rt := sample_runtime)
                 [ mk_turn t_2220 (Message level1_A_text) ] watcher_AB))).
Proof.
  apply (receive_loop_displayable (rt := sample_runtime)).
  - exists 0, 0. split; reflexivity.
  - intros e. discriminate.
Defined.

(** X13, the witness: 0.41 and then 0.62 for ["A"]. *)
Lemma update_price_last_wins_witness :
  snd (fst (update_price t_2220 (JStr "A") 0.62
              (snd (fst (update_price t_2220 (JStr "A") 0.41 watcher_AB)))))
  = snd (fst (update_price t_2220 (JStr "A") 0.62 watcher_AB)).
Proof.
  apply (update_price_last_wins t_2220 t_2220 (JStr "A") 0.41 0.62 watcher_AB).
  reflexivity.
Defined.

(** X19, the witness: an infinite best ask for ["A"]. *)
Lemma unshowable_price_ends_session_witness :
  receive_loop (rt := sample_runtime_inf)
    [ mk_turn t_2220 (Message level1_inf_text);
      mk_turn t_2220 (Message level1_inf_text) ] watcher_AB
  = (StreamError OverflowError, set_YES watcher_AB infinity, []).
Proof.
  apply (unshowable_price_ends_session (rt := sample_runtime_inf)
           (mk_turn t_2220 (Message level1_inf_text)) _ watcher_AB
           level1_inf_text
           (map (fun '(k, v) => (k, JStr v)) level1_inf_fields)
           (JStr "A") (JStr "inf") infinity OverflowError);
    reflexivity.
Defined.


(** X15, the witness: a price-change record without [asset_id]. *)
Lemma missing_asset_id_raises_witness :
  price_change (rt := sample_runtime) t_2220 change_without_id watcher_AB
  = (Raise KeyError, watcher_AB, []).
Proof.
  apply (proj1 (missing_asset_id_raises (rt := sample_runtime)
                  t_2220 watcher_AB)
           [ ("best_ask", JStr "0.41") ]).
  reflexivity.
Defined.

(** X16, the witness: 0.62 for ["A"], then a record for ["A"] whose price is
    the infinity, then a record that is never reached.  The second record
    stores its price and raises when the status line is formatted: the
    watcher is left with the infinity, not with 0.62. *)
Lemma price_changes_partial_witness :
  price_changes (rt := sample_runtime_inf) t_2220
    ([change_A] ++ change_A_inf :: [change_A]) watcher_AB
  = (Raise OverflowError, set_YES watcher_AB infinity,
     ([Display 587 62 0] ++ [])%list).
Proof.
  apply (price_changes_partial (rt := sample_runtime_inf) t_2220
           [change_A] [change_A] change_A_inf watcher_AB
           (set_YES watcher_AB 0.62));
    reflexivity.
Defined.

(** A record without [asset_id] raises before the watcher is touched: the
    price of the record before it stays. *)
Example price_changes_partial_untouched :
  price_changes (rt := sample_runtime) t_2220
    [change_A; change_without_id; change_A] watcher_AB
  = (Raise KeyError, set_YES watcher_AB 0.62, [Display 587 62 0]).
Proof. reflexivity. Qed.


(** X21, the witness: a cycle with no market and a cycle with a session
    that ends by expiry. *)
Lemma main_loop_pauses_witness :
  List.length
    (sleeps (snd (fst (main_loop (rt := sample_runtime) nat late_listing
                         [cycle_2220; cycle_2220] O))))
  = 2%nat.
Proof.
  apply (proj2 (main_loop_pauses (rt := sample_runtime) nat late_listing
                  [cycle_2220; cycle_2220] O)).
  reflexivity.
Defined.

(** The actions of those two cycles: six requests and a pause of 30
    seconds; then one request, the session with its one status line, and a
    pause of 4 seconds. *)
Example main_loop_two_cycles :
  let '(d, acts, served) :=
    main_loop (rt := sample_runtime) nat late_listing
      [cycle_2220; cycle_2220] O in
  d = Scanning /\ served = 7%nat
  /\ sleeps acts = [30; 4]
  /\ skipn 6 acts
     = [ Sleep 30; Get first_url; Connect;
         Subscribe (JObj [ ("assets_ids", JArr [JStr "A"; JStr "B"]);
                           ("type", JStr "level1") ]);
         Out (Display 587 62 0); Sleep 4 ].
Proof. vm_compute. repeat split. Qed.

(** The seconds shown are the integer part of the double
    [total_seconds()] returns, not of the exact quotient: the two part ways
    once the microseconds need more than 53 bits.  With 18117031187.999999
    seconds left the double is 18117031188.0; a market that ended a second
    and a half ago shows -1; the last value is the longest [timedelta]. *)
Example int_total_seconds_values :
  int_total_seconds 587500000 = 587
  /\ int_total_seconds (-1500000) = -1
  /\ int_total_seconds 8589934592999999 = 8589934592
  /\ int_total_seconds 18117031187999999 = 18117031188
  /\ int_total_seconds 86399999999999999999 = 86400000000000.
Proof. vm_compute. repeat split. Qed.

End Examples.

End WatcherMore.
